(** * encuesta-seguridad-mercado: the survey API of [server.js]

    A shallow embedding of the Express application in
    [src/backend/server.js] (the current revision) and of the earlier
    revision of the same file kept next to it.  Route handlers are
    programs over the calls they await on the Mongoose models; the
    programs are run against an in-memory document store.

    Conventions.
    - A JavaScript string is a [string], one [ascii] per code unit, so
      that [String.length] is the [.length] of the source.
    - JSON numbers are integers ([Z]); only their being zero or not and
      their order matter to the handlers.
    - [console.log] / [console.error] lines have no counterpart. *)

From Stdlib Require Import ZArith List String Ascii Bool Lia DecimalString.
From Stdlib Require Import Sorted Permutation.
Import ListNotations.
Local Open Scope string_scope.
Local Open Scope Z_scope.

Set Implicit Arguments.
Set Warnings "-register-all".

(* ================================================================== *)
(** ** JavaScript values *)
(* ================================================================== *)

(** What [express.json()] / [express.urlencoded()] put in [req.body],
    what handlers pass to [res.json], and [Date] objects ([JDate], the
    instant in milliseconds; [res.json] writes it as its ISO string, the
    same text [toISOString()] gives). *)
Inductive JSValue : Type :=
| JUndefined
| JNull
| JBool (b : bool)
| JNum (z : Z)
| JStr (s : string)
| JDate (ms : Z)
| JArr (items : list JSValue)
| JObj (props : list (string * JSValue)).

(** [!v] is [negb (truthy v)]. *)
Definition truthy (v : JSValue) : bool :=
  match v with
  | JUndefined | JNull => false
  | JBool b => b
  | JNum z => negb (z =? 0)
  | JStr s => negb (String.eqb s "")
  | JDate _ | JArr _ | JObj _ => true
  end.

Fixpoint lookup (k : string) (props : list (string * JSValue)) : JSValue :=
  match props with
  | [] => JUndefined
  | (k', v) :: rest => if String.eqb k k' then v else lookup k rest
  end.

(** [v.k] for the keys the handlers read: the body fields and [length].
    Never applied to [undefined] or [null] by the handlers. *)
Definition get_prop (v : JSValue) (k : string) : JSValue :=
  match v with
  | JObj props => lookup k props
  | JStr s => if String.eqb k "length" then JNum (Z.of_nat (String.length s))
              else JUndefined
  | JArr items => if String.eqb k "length" then JNum (Z.of_nat (List.length items))
                  else JUndefined
  | _ => JUndefined
  end.

(** [a === b].  Objects, arrays and dates are compared by identity, and
    the two sides of the comparisons in the handlers are never the same
    object. *)
Definition strict_eq (a b : JSValue) : bool :=
  match a, b with
  | JUndefined, JUndefined => true
  | JNull, JNull => true
  | JBool x, JBool y => Bool.eqb x y
  | JNum x, JNum y => x =? y
  | JStr x, JStr y => String.eqb x y
  | _, _ => false
  end.

(** [`${n}`] for a count. *)
Definition decimal (n : nat) : string := NilEmpty.string_of_uint (Nat.to_uint n).

(* ================================================================== *)
(** ** Errors and completions *)
(* ================================================================== *)

(** The fields of a thrown error that the catch blocks read.
    [err_code] is [err.code] when it is a number; [err_keyPattern] the
    keys of [err.keyPattern], in order, when the property is there;
    [err_errors] the entries of [err.errors] (field, message). *)
Record Error : Type := mkError {
  err_name : string;
  err_message : string;
  err_code : option Z;
  err_keyPattern : option (list string);
  err_errors : option (list (string * string))
}.

Definition TypeError (msg : string) : Error :=
  mkError "TypeError" msg None None None.

Inductive Completion (A : Type) : Type :=
| Normal (a : A)
| Throw (e : Error).
Arguments Normal {A} a.
Arguments Throw {A} e.

(* ================================================================== *)
(** ** Documents *)
(* ================================================================== *)

(** A stored [Respuesta]: the paths of [surveySchema] as cast from the
    body ([campos]) and what [timestamps: true] adds. *)
Record Respuesta : Type := mkRespuesta {
  _id : string;
  campos : list (string * JSValue);
  createdAt : Z;
  updatedAt : Z
}.

(** A stored [User] ([userSchema]). *)
Record User : Type := mkUser {
  usuario : string;
  email : string;
  password : string;
  fechaRegistro : Z
}.

Definition Respuesta_toJSON (d : Respuesta) : JSValue :=
  JObj (("_id", JStr (_id d)) :: campos d
        ++ [("createdAt", JDate (createdAt d)); ("updatedAt", JDate (updatedAt d))]).

(* ================================================================== *)
(** ** What the platform decides *)
(* ================================================================== *)

(** The JavaScript engine, where the handlers reach a coercion that is
    not written out here: [v < n] for [v] a string, an array, an object
    or a date goes through ToPrimitive and StringToNumber, and can
    throw. *)
Class Engine : Type := {
  lt_coerced : JSValue -> Z -> Completion bool
}.

(** Mongoose, for what the schemas leave to it: the identifier of the
    [n]-th document built, the cast of a body to the schema's paths, the
    two timestamps written for a document built from [body] and saved at
    [t], the cast of a non-string to a [String] path, and a
    [{ usuario: q }] filter whose [q] is not a string. *)
Class Odm : Type := {
  ObjectId : nat -> string;
  cast_campos : JSValue -> list (string * JSValue);
  timestamps : JSValue -> Z -> Z * Z;
  cast_coerced : JSValue -> string;
  query_coerced : JSValue -> User -> bool
}.

(** [password.length < 8]: the relational comparison on the primitives;
    [undefined] becomes NaN and every comparison with NaN is false. *)
Definition js_lt `{E : Engine} (v : JSValue) (n : Z) : Completion bool :=
  match v with
  | JUndefined => Normal false
  | JNull => Normal (0 <? n)
  | JBool b => Normal ((if b then 1 else 0) <? n)
  | JNum z => Normal (z <? n)
  | _ => lt_coerced v n
  end.

Definition cast_String `{M : Odm} (v : JSValue) : string :=
  match v with
  | JStr s => s
  | _ => cast_coerced v
  end.

(** [new Respuesta(body)] saved at [t] as the [n]-th document. *)
Definition new_Respuesta `{M : Odm} (body : JSValue) (t : Z) (n : nat) : Respuesta :=
  mkRespuesta (ObjectId n) (cast_campos body)
              (fst (timestamps body t)) (snd (timestamps body t)).

(** [new User({ usuario, email, password })] saved at [t]
    ([fechaRegistro] defaults to [Date.now]). *)
Definition new_User `{M : Odm} (u e p : JSValue) (t : Z) : User :=
  mkUser (cast_String u) (cast_String e) (cast_String p) t.

(** Does [{ usuario: q }] select [u]? *)
Definition query_usuario `{M : Odm} (q : JSValue) (u : User) : bool :=
  match q with
  | JStr s => String.eqb s (usuario u)
  | _ => query_coerced q u
  end.

(* ================================================================== *)
(** ** Handler programs *)
(* ================================================================== *)

(** The calls a handler awaits. *)
Inductive DbCall : Type -> Type :=
| Respuesta_save (body : JSValue) : DbCall string
| Respuesta_find_sorted : DbCall (list Respuesta)
| Respuesta_countDocuments (gte : option Z) : DbCall nat
| Respuesta_findByIdAndDelete (id : string) : DbCall (option Respuesta)
| Respuesta_deleteMany : DbCall nat
| User_findOne (q : JSValue) : DbCall (option User)
| User_save (u e p : JSValue) : DbCall unit.

(** A handler: it answers, reads the clock ([Date.now()], [new Date()]),
    or awaits a call that resolves or rejects. *)
Inductive Prog (R : Type) : Type :=
| Ret (r : R)
| Clock (k : Z -> Prog R)
| Await {A : Type} (c : DbCall A) (k : Completion A -> Prog R).
Arguments Ret {R} r.
Arguments Clock {R} k.
Arguments Await {R A} c k.

(** [try { x = await c; k } catch (err) { h }], and the same for a
    computation of the engine inside the [try]. *)
Definition try_await {A R} (c : DbCall A) (h : Error -> Prog R)
           (k : A -> Prog R) : Prog R :=
  Await c (fun r => match r with Normal a => k a | Throw e => h e end).

Definition try_eval {A R} (c : Completion A) (h : Error -> Prog R)
           (k : A -> Prog R) : Prog R :=
  match c with Normal a => k a | Throw e => h e end.

Notation "'await' x '<-' c 'catch' h ';;' k" :=
  (try_await c h (fun x => k))
    (at level 61, x name, c at next level, h at next level, right associativity).
Notation "'attempt' x '<-' c 'catch' h ';;' k" :=
  (try_eval c h (fun x => k))
    (at level 61, x name, c at next level, h at next level, right associativity).
Notation "'date' t ';;' k" :=
  (Clock (fun t => k)) (at level 61, t name, right associativity).

(** What a request ends in. *)
Inductive Reply : Type :=
| Json (status : Z) (body : JSValue)     (* res.status(s).json(body) *)
| SendFile (file : string)               (* res.sendFile / express.static *)
| Escaped (e : Error)                    (* thrown out of the handler *)
| Unrouted.                              (* no layer answered *)

Definition status_of (r : Reply) : option Z :=
  match r with Json s _ => Some s | _ => None end.

Definition body_of (r : Reply) : JSValue :=
  match r with Json _ b => b | _ => JUndefined end.

(* ================================================================== *)
(** ** Configuration *)
(* ================================================================== *)

Inductive Revision : Type :=
| Current      (* src/backend/server.js *)
| Earlier.     (* the earlier revision of the file *)

Record Env : Type := mkEnv {
  NODE_ENV : option string;
  ADMIN_REGISTER_TOKEN : option string;
  PORT : option string;
  readyState : Z;                 (* mongoose.connection.readyState *)
  version : string;               (* process.version *)
  static_has : string -> bool;    (* a file express.static serves at this path *)
  build_index : bool;             (* build/index.html exists *)
  public_index : bool;            (* public/index.html exists *)
  sendFile_error : Error          (* what res.sendFile passes on for a missing file *)
}.

Definition env_is (v : option string) (s : string) : bool :=
  match v with Some x => String.eqb x s | None => false end.

Definition env_value (v : option string) : JSValue :=
  match v with Some x => JStr x | None => JUndefined end.

(** [process.env.NODE_ENV || 'development'] *)
Definition environment (env : Env) : string :=
  match NODE_ENV env with
  | Some s => if String.eqb s "" then "development" else s
  | None => "development"
  end.

(** [process.env.NODE_ENV === 'development' ? err.message : generic] *)
Definition details_gate (env : Env) (e : Error) (generic : string) : JSValue :=
  if env_is (NODE_ENV env) "development" then JStr (err_message e) else JStr generic.

(* ================================================================== *)
(** ** Catch blocks *)
(* ================================================================== *)

(** [Object.keys(err.errors).map(key => ({ field: key, message:
    err.errors[key].message }))] *)
Definition validation_details (errs : list (string * string)) : JSValue :=
  JArr (map (fun fm => JObj [("field", JStr (fst fm)); ("message", JStr (snd fm))]) errs).

(** POST /api/respuestas.  The current revision answers a
    [ValidationError] with 400 and sends [err.message] with every 500;
    the earlier one has the gated 500 only. *)
Definition catch_post_respuestas (rev : Revision) (env : Env) (e : Error) : Reply :=
  match rev with
  | Current =>
      if String.eqb (err_name e) "ValidationError" then
        match err_errors e with
        | Some errs =>
            Json 400 (JObj [("error", JStr "Error de validación");
                            ("details", validation_details errs)])
        | None => Escaped (TypeError "Cannot convert undefined or null to object")
        end
      else
        Json 500 (JObj [("error", JStr "Error al guardar la respuesta");
                        ("details", JStr (err_message e));
                        ("errorName", JStr (err_name e))])
  | Earlier =>
      Json 500 (JObj [("error", JStr "Error al guardar la respuesta");
                      ("details", details_gate env e "Error interno del servidor")])
  end.

Definition catch_get_respuestas (env : Env) (e : Error) : Reply :=
  Json 500 (JObj [("error", JStr "Error al obtener respuestas");
                  ("details", details_gate env e "Error interno del servidor")]).

Definition catch_get_estadisticas (env : Env) (e : Error) : Reply :=
  Json 500 (JObj [("error", JStr "Error al obtener estadísticas");
                  ("details", details_gate env e "Error interno del servidor")]).

Definition catch_post_login (env : Env) (e : Error) : Reply :=
  Json 500 (JObj [("error", JStr "Error en el servidor");
                  ("details", details_gate env e "Error interno")]).

(** POST /api/register: [err.code === 11000] is the duplicate key; the
    field is [Object.keys(err.keyPattern)[0]]. *)
Definition catch_post_register (env : Env) (e : Error) : Reply :=
  match err_code e with
  | Some 11000 =>
      match err_keyPattern e with
      | Some keys =>
          let field := hd_error keys in
          let who := match field with
                     | Some f => if String.eqb f "usuario" then "Usuario" else "Email"
                     | None => "Email"
                     end in
          Json 409 (JObj [("mensaje", JStr (who ++ " ya existe"))])
      | None => Escaped (TypeError "Cannot convert undefined or null to object")
      end
  | _ =>
      Json 500 (JObj [("error", JStr "Error al registrar administrador");
                      ("details", details_gate env e "Error interno del servidor")])
  end.

Definition catch_delete_respuesta (env : Env) (e : Error) : Reply :=
  Json 500 (JObj [("error", JStr "Error al eliminar respuesta");
                  ("details", details_gate env e "Error interno del servidor")]).

Definition catch_delete_respuestas (env : Env) (e : Error) : Reply :=
  Json 500 (JObj [("error", JStr "Error al eliminar respuestas");
                  ("details", details_gate env e "Error interno del servidor")]).

(** [app.use((err, req, res, next) => ...)].  The current revision
    always sends [err.message] ("temporalmente"), with a timestamp and
    the URL; the earlier one gates it. *)
Definition error_middleware (rev : Revision) (env : Env) (originalUrl : string)
           (e : Error) : Prog Reply :=
  match rev with
  | Current =>
      date t ;;
      Ret (Json 500 (JObj [("error", JStr "Error interno del servidor");
                           ("details", JStr (err_message e));
                           ("timestamp", JDate t);
                           ("path", JStr originalUrl)]))
  | Earlier =>
      Ret (Json 500 (JObj [("error", JStr "Error interno del servidor");
                           ("details", details_gate env e "Error interno")]))
  end.

(* ================================================================== *)
(** ** Route handlers *)
(* ================================================================== *)

Definition get_api_health (rev : Revision) (env : Env) : Prog Reply :=
  date t ;;
  Ret (Json 200
    (JObj ([("message", JStr "🟢 Servidor funcionando correctamente");
            ("timestamp", JDate t);
            ("environment", JStr (environment env))]
           ++ match rev with
              | Current =>
                  [("mongodb", JStr (if readyState env =? 1 then "Conectado"
                                     else "Desconectado"));
                   ("mongoState", JNum (readyState env));
                   ("port", env_value (PORT env));
                   ("nodeVersion", JStr (version env))]
              | Earlier => []
              end))).

Definition post_api_respuestas (rev : Revision) (env : Env) (body : JSValue)
  : Prog Reply :=
  if negb (truthy (get_prop body "nombre")) || negb (truthy (get_prop body "puesto"))
  then Ret (Json 400 (JObj [("error", JStr "Nombre y puesto son campos obligatorios")]))
  else
    await id <- Respuesta_save body
      catch (fun err => Ret (catch_post_respuestas rev env err)) ;;
    Ret (Json 201 (JObj [("mensaje", JStr "Respuesta guardada correctamente");
                         ("id", JStr id)])).

Definition get_api_respuestas (env : Env) : Prog Reply :=
  await respuestas <- Respuesta_find_sorted
    catch (fun err => Ret (catch_get_respuestas env err)) ;;
  Ret (Json 200 (JArr (map Respuesta_toJSON respuestas))).

Definition get_api_estadisticas (env : Env) : Prog Reply :=
  let h := fun err => Ret (catch_get_estadisticas env err) in
  await totalEncuestas <- Respuesta_countDocuments None catch h ;;
  date t ;;
  await ultimaSemana <- Respuesta_countDocuments (Some (t - 7 * 24 * 60 * 60 * 1000))
    catch h ;;
  date t' ;;
  Ret (Json 200 (JObj [("total", JNum (Z.of_nat totalEncuestas));
                       ("ultimaSemana", JNum (Z.of_nat ultimaSemana));
                       ("timestamp", JDate t')])).

(** [{ usuario: user.usuario, email: user.email, fechaRegistro:
    user.fechaRegistro }] *)
Definition login_user (u : User) : JSValue :=
  JObj [("usuario", JStr (usuario u)); ("email", JStr (email u));
        ("fechaRegistro", JDate (fechaRegistro u))].

Definition post_api_login (env : Env) (body : JSValue) : Prog Reply :=
  let q_usuario := get_prop body "usuario" in
  let q_password := get_prop body "password" in
  if negb (truthy q_usuario) || negb (truthy q_password)
  then Ret (Json 400 (JObj [("mensaje", JStr "Usuario y contraseña son obligatorios")]))
  else
    await user <- User_findOne q_usuario
      catch (fun err => Ret (catch_post_login env err)) ;;
    match user with
    | None => Ret (Json 401 (JObj [("mensaje", JStr "Credenciales incorrectas")]))
    | Some u =>
        if negb (strict_eq (JStr (password u)) q_password)
        then Ret (Json 401 (JObj [("mensaje", JStr "Credenciales incorrectas")]))
        else Ret (Json 200 (JObj [("mensaje", JStr "Login exitoso");
                                  ("user", login_user u)]))
    end.

Definition post_api_register `{E : Engine} (env : Env) (body : JSValue) : Prog Reply :=
  let token := get_prop body "token" in
  let q_usuario := get_prop body "usuario" in
  let q_email := get_prop body "email" in
  let q_password := get_prop body "password" in
  let h := fun err => Ret (catch_post_register env err) in
  if negb (strict_eq token (env_value (ADMIN_REGISTER_TOKEN env)))
  then Ret (Json 403 (JObj [("mensaje", JStr "Token de autorización inválido")]))
  else if negb (truthy q_usuario) || negb (truthy q_email) || negb (truthy q_password)
  then Ret (Json 400 (JObj [("mensaje", JStr "Todos los campos son obligatorios")]))
  else
    attempt short_password <- js_lt (get_prop q_password "length") 8 catch h ;;
    if short_password
    then Ret (Json 400 (JObj [("mensaje",
                 JStr "La contraseña debe tener al menos 8 caracteres")]))
    else
      attempt short_usuario <- js_lt (get_prop q_usuario "length") 4 catch h ;;
      if short_usuario
      then Ret (Json 400 (JObj [("mensaje",
                   JStr "El usuario debe tener al menos 4 caracteres")]))
      else
        await saved <- User_save q_usuario q_email q_password catch h ;;
        Ret (Json 201 (JObj [("mensaje", JStr "Administrador registrado exitosamente")])).

Definition delete_api_respuestas_id (env : Env) (id : string) : Prog Reply :=
  await respuesta <- Respuesta_findByIdAndDelete id
    catch (fun err => Ret (catch_delete_respuesta env err)) ;;
  match respuesta with
  | None => Ret (Json 404 (JObj [("mensaje", JStr "Respuesta no encontrada")]))
  | Some _ => Ret (Json 200 (JObj [("mensaje", JStr "Respuesta eliminada correctamente")]))
  end.

Definition delete_api_respuestas (env : Env) : Prog Reply :=
  await deletedCount <- Respuesta_deleteMany
    catch (fun err => Ret (catch_delete_respuestas env err)) ;;
  Ret (Json 200 (JObj [("mensaje",
         JStr (decimal deletedCount ++ " respuestas eliminadas correctamente"))])).

(* ================================================================== *)
(** ** Routing *)
(* ================================================================== *)

(** The methods the routes tell apart.  An OPTIONS request is ended by
    the [cors()] layer before any route and is not a [Request] here. *)
Inductive Method : Type := GET | HEAD | POST | PUT | PATCH | DELETE.

(** [body] is what the body parsers leave: the parsed value, or the
    error they pass on (malformed JSON, oversized payload). *)
Record Request : Type := mkRequest {
  method : Method;
  path : string;            (* req.path *)
  originalUrl : string;     (* req.originalUrl *)
  body : Completion JSValue
}.

(** [app.get] routes also take HEAD requests. *)
Definition is_get (m : Method) : bool :=
  match m with GET | HEAD => true | _ => false end.
Definition is_post (m : Method) : bool :=
  match m with POST => true | _ => false end.
Definition is_delete (m : Method) : bool :=
  match m with DELETE => true | _ => false end.

Definition lower_ascii (c : ascii) : ascii :=
  let n := nat_of_ascii c in
  if (Nat.leb 65 n && Nat.leb n 90)%bool then ascii_of_nat (n + 32) else c.

Fixpoint lower (s : string) : string :=
  match s with
  | EmptyString => EmptyString
  | String c r => String (lower_ascii c) (lower r)
  end.

(** Route paths match without regard to case and with an optional
    trailing slash. *)
Definition route_eq (pattern p : string) : bool :=
  String.eqb (lower p) pattern || String.eqb (lower p) (pattern ++ "/").

Fixpoint strip_slash (s : string) : string :=
  match s with
  | EmptyString => EmptyString
  | String c r =>
      match r with
      | EmptyString => if Ascii.eqb c "/" then EmptyString else s
      | _ => String c (strip_slash r)
      end
  end.

Fixpoint has_slash (s : string) : bool :=
  match s with
  | EmptyString => false
  | String c r => Ascii.eqb c "/" || has_slash r
  end.

(** ['/api/respuestas/:id']: one non-empty segment after the prefix,
    as it is written in the path.  Express hands the handler its
    percent-decoding, the same string when the segment has no ['%']
    ([has_percent]); for a segment with one this is the undecoded
    text. *)
Definition match_id (p : string) : option string :=
  let pre := "/api/respuestas/" in
  if String.prefix pre (lower p) then
    let id := strip_slash (substring (String.length pre)
                             (String.length p - String.length pre) p) in
    if String.eqb id "" || has_slash id then None else Some id
  else None.

(** [app.use('/api/*', ...)]: every path that starts with [/api/]. *)
Definition under_api (p : string) : bool := String.prefix "/api/" (lower p).

Definition availableEndpoints : JSValue :=
  JArr [JStr "GET /api/health"; JStr "GET /api/respuestas"; JStr "POST /api/respuestas";
        JStr "POST /api/login"; JStr "POST /api/register"].

(** [app.get('*', ...)], registered before the 404 layer.  [None]: the
    route is not registered (earlier revision outside production). *)
Definition get_star (rev : Revision) (env : Env) (url : string) : option (Prog Reply) :=
  let production := env_is (NODE_ENV env) "production" in
  match rev with
  | Current =>
      if production then
        if build_index env then Some (Ret (SendFile "build/index.html"))
        else if public_index env then Some (Ret (SendFile "public/index.html"))
        else Some (Ret (Json 200 (JObj
               [("message", JStr "🚀 API funcionando correctamente");
                ("note", JStr "Esta es una API backend. Frontend no configurado.");
                ("availableEndpoints", availableEndpoints)])))
      else Some (Ret (Json 200 (JObj
               [("message", JStr "🚀 API en modo desarrollo");
                ("availableEndpoints", availableEndpoints)])))
  | Earlier =>
      if production then
        if build_index env then Some (Ret (SendFile "build/index.html"))
        else Some (error_middleware rev env url (sendFile_error env))
      else None
  end.

(** [app.use('/api/*', (req, res) => res.status(404).json(...))] *)
Definition use_api_star (url : string) : Reply :=
  Json 404 (JObj [("error", JStr "Ruta no encontrada"); ("path", JStr url)]).

(** The routes with a handler of their own, in registration order. *)
Definition endpoint `{E : Engine} (rev : Revision) (env : Env) (m : Method) (p : string)
           (b : JSValue) : option (Prog Reply) :=
  if is_get m && route_eq "/api/health" p then Some (get_api_health rev env)
  else if is_post m && route_eq "/api/respuestas" p then Some (post_api_respuestas rev env b)
  else if is_get m && route_eq "/api/respuestas" p then Some (get_api_respuestas env)
  else if is_get m && route_eq "/api/estadisticas" p then Some (get_api_estadisticas env)
  else if is_post m && route_eq "/api/login" p then Some (post_api_login env b)
  else if is_post m && route_eq "/api/register" p then Some (post_api_register env b)
  else if is_delete m then
    match match_id p with
    | Some id => Some (delete_api_respuestas_id env id)
    | None => if route_eq "/api/respuestas" p then Some (delete_api_respuestas env)
              else None
    end
  else None.

(** The application: body parsers, static files (production), the
    routes, the catch-all, the 404 layer. *)
Definition app `{E : Engine} (rev : Revision) (env : Env) (req : Request) : Prog Reply :=
  match body req with
  | Throw e => error_middleware rev env (originalUrl req) e
  | Normal b =>
      if env_is (NODE_ENV env) "production" && is_get (method req)
         && static_has env (path req)
      then Ret (SendFile (path req))
      else
        match endpoint rev env (method req) (path req) b with
        | Some handler => handler
        | None =>
            match (if is_get (method req) then get_star rev env (originalUrl req)
                   else None) with
            | Some handler => handler
            | None => if under_api (path req) then Ret (use_api_star (originalUrl req))
                      else Ret Unrouted
            end
        end
  end.

(* ================================================================== *)
(** ** The document store *)
(* ================================================================== *)

(** The two collections, the number of documents built so far, the
    clock, and for each awaited call in turn whether the store rejects
    it (validation, duplicate key, transport) and with what; a call
    beyond the list resolves. *)
Record World : Type := mkWorld {
  respuestas : list Respuesta;
  users : list User;
  built : nat;
  clock : Z;
  rejections : list (option Error)
}.

Definition next_rejection (w : World) : option Error * World :=
  match rejections w with
  | [] => (None, w)
  | r :: rest => (r, mkWorld (respuestas w) (users w) (built w) (clock w) rest)
  end.

Definition set_respuestas (l : list Respuesta) (n : nat) (w : World) : World :=
  mkWorld l (users w) n (clock w) (rejections w).

Definition set_users (l : list User) (w : World) : World :=
  mkWorld (respuestas w) l (built w) (clock w) (rejections w).

(** [.sort({ createdAt: -1 })] *)
Fixpoint insert_desc (d : Respuesta) (l : list Respuesta) : list Respuesta :=
  match l with
  | [] => [d]
  | x :: rest => if createdAt x <? createdAt d then d :: l else x :: insert_desc d rest
  end.

Definition sort_desc (l : list Respuesta) : list Respuesta :=
  fold_right insert_desc [] l.

(** [{ createdAt: { $gte: t } }] *)
Definition gte_createdAt (t : Z) (d : Respuesta) : bool := t <=? createdAt d.

Fixpoint remove_id (id : string) (l : list Respuesta) : list Respuesta :=
  match l with
  | [] => []
  | x :: rest => if String.eqb (_id x) id then rest else x :: remove_id id rest
  end.

(** What a call does once the store carries it out.  Identifiers are
    compared as the strings the store writes for them
    ([is_ObjectId_hex]); what Mongoose and the indexes refuse (an
    argument that is no ObjectId, a failed validation, a usuario or an
    email that is taken) is not computed from the collections here: it
    is a rejection of the world. *)
Definition resolve `{M : Odm} {A : Type} (c : DbCall A) : World -> A * World :=
  match c in DbCall T return World -> T * World with
  | Respuesta_save b => fun w =>
      let d := new_Respuesta b (clock w) (built w) in
      (_id d, set_respuestas (respuestas w ++ [d]) (S (built w)) w)
  | Respuesta_find_sorted => fun w => (sort_desc (respuestas w), w)
  | Respuesta_countDocuments None => fun w => (List.length (respuestas w), w)
  | Respuesta_countDocuments (Some t) => fun w =>
      (List.length (filter (gte_createdAt t) (respuestas w)), w)
  | Respuesta_findByIdAndDelete id => fun w =>
      (find (fun d => String.eqb (_id d) id) (respuestas w),
       set_respuestas (remove_id id (respuestas w)) (built w) w)
  | Respuesta_deleteMany => fun w =>
      (List.length (respuestas w), set_respuestas [] (built w) w)
  | User_findOne q => fun w => (find (query_usuario q) (users w), w)
  | User_save u e p => fun w =>
      (tt, set_users (users w ++ [new_User u e p (clock w)]) w)
  end.

(** One awaited call: rejected as the world says, or carried out. *)
Definition exec `{M : Odm} {A : Type} (c : DbCall A) (w : World) : Completion A * World :=
  match next_rejection w with
  | (Some e, w') => (Throw e, w')
  | (None, w') => let (a, w'') := resolve c w' in (Normal a, w'')
  end.

(** One request served alone, at one instant of the clock; [run_among]
    lets other requests in between the calls. *)
Fixpoint run `{M : Odm} {R : Type} (p : Prog R) (w : World) : R * World :=
  match p with
  | Ret r => (r, w)
  | Clock k => run (k (clock w)) w
  | Await c k => let (r, w') := exec c w in run (k r) w'
  end.

(** The hexadecimal string of an ObjectId, as the store writes [_id]:
    24 digits, letters in lower case.  On such a string the cast that
    [findByIdAndDelete] applies to its argument changes nothing. *)
Definition is_hex_digit (c : ascii) : bool :=
  let n := nat_of_ascii c in
  (Nat.leb 48 n && Nat.leb n 57) || (Nat.leb 97 n && Nat.leb n 102).

Fixpoint all_hex (s : string) : bool :=
  match s with
  | EmptyString => true
  | String c r => is_hex_digit c && all_hex r
  end.

Definition is_ObjectId_hex (s : string) : bool :=
  Nat.eqb (String.length s) 24 && all_hex s.

(** A percent sign: Express hands a route parameter over
    percent-decoded, which leaves a segment without one as it is. *)
Fixpoint has_percent (s : string) : bool :=
  match s with
  | EmptyString => false
  | String c r => Ascii.eqb c "%" || has_percent r
  end.

(** [run] with the rest of the traffic: while a handler waits on a
    call the server goes on serving other requests, and [others] is
    what they have done to the world when the handler goes on. *)
Fixpoint run_among `{M : Odm} {R : Type} (others : World -> World)
         (p : Prog R) (w : World) : R * World :=
  match p with
  | Ret r => (r, w)
  | Clock k => run_among others (k (clock w)) w
  | Await c k => let (r, w') := exec c w in run_among others (k r) (others w')
  end.

(** Another request stores the survey [d]. *)
Definition stores (d : Respuesta) (w : World) : World :=
  set_respuestas (respuestas w ++ [d]) (S (built w)) w.

(** The calls that only read. *)
Definition read_only {A : Type} (c : DbCall A) : bool :=
  match c with
  | Respuesta_find_sorted | Respuesta_countDocuments _ | User_findOne _ => true
  | _ => false
  end.

(** The first [n] awaited calls resolve. *)
Definition is_none {A : Type} (o : option A) : bool :=
  match o with None => true | Some _ => false end.

Definition calm (n : nat) (w : World) : bool :=
  forallb is_none (firstn n (rejections w)).

(* ================================================================== *)
(** ** The catch blocks, handler by handler *)
(* ================================================================== *)

Inductive Handler : Type :=
| H_post_respuestas
| H_get_respuestas
| H_get_estadisticas
| H_post_login
| H_post_register
| H_delete_respuestas_id
| H_delete_respuestas.

(** The [catch (err) { ... }] of each route handler. *)
Definition catch_of (rev : Revision) (h : Handler) (env : Env) (e : Error) : Reply :=
  match h with
  | H_post_respuestas => catch_post_respuestas rev env e
  | H_get_respuestas => catch_get_respuestas env e
  | H_get_estadisticas => catch_get_estadisticas env e
  | H_post_login => catch_post_login env e
  | H_post_register => catch_post_register env e
  | H_delete_respuestas_id => catch_delete_respuesta env e
  | H_delete_respuestas => catch_delete_respuestas env e
  end.

(** The catch blocks whose 500 goes through [details_gate]: all but
    that of POST /api/respuestas in the current revision. *)
Definition gated (rev : Revision) (h : Handler) : bool :=
  match rev, h with
  | Current, H_post_respuestas => false
  | _, _ => true
  end.

(** The same error with another message. *)
Definition with_message (e : Error) (m : string) : Error :=
  mkError (err_name e) m (err_code e) (err_keyPattern e) (err_errors e).

Definition is_validation (e : Error) : bool := String.eqb (err_name e) "ValidationError".

Definition is_duplicate (e : Error) : bool :=
  match err_code e with Some c => c =? 11000 | None => false end.

(** The [details] field of an answer. *)
Definition disclosed (r : Reply) : JSValue := get_prop (body_of r) "details".

(** The mapping the claim C5 describes, at one handler and one failure. *)
Definition spec_uniform_mapping (rev : Revision) (h : Handler) (env : Env) (e : Error)
  : Prop :=
  (is_validation e = true -> status_of (catch_of rev h env e) = Some 400)
  /\ (is_duplicate e = true -> status_of (catch_of rev h env e) = Some 409)
  /\ (is_validation e = false -> is_duplicate e = false ->
      status_of (catch_of rev h env e) = Some 500).

(* ================================================================== *)
(** ** Sample platform and data, for running the handlers *)
(* ================================================================== *)

Definition sample_engine : Engine :=
  {| lt_coerced := fun _ _ => Normal false |}.

Definition sample_odm : Odm :=
  {| ObjectId := decimal;
     cast_campos := fun b => match b with JObj props => props | _ => [] end;
     timestamps := fun _ t => (t, t);
     cast_coerced := fun v => match v with
                              | JNum z => decimal (Z.to_nat z)
                              | JBool true => "true"
                              | JBool false => "false"
                              | _ => ""
                              end;
     query_coerced := fun _ _ => false |}.

Definition sample_env (mode : option string) : Env :=
  mkEnv mode (Some "s3cr3t") (Some "3001") 1 "v18.0.0" (fun _ => false) false false
        (mkError "Error" "ENOENT: no such file or directory" None None None).

Definition sample_world (docs : list Respuesta) (us : list User)
           (rej : list (option Error)) : World :=
  mkWorld docs us (List.length docs) 1700000000000 rej.

Definition sample_failure : Error :=
  mkError "MongoNetworkError" "connect ECONNREFUSED 10.0.0.7:27017" None None None.

Definition sample_validation_failure : Error :=
  mkError "ValidationError" "User validation failed: email: Cast to string failed"
          None None (Some [("email", "Cast to string failed")]).

Definition sample_duplicate (field : string) : Error :=
  mkError "MongoServerError" "E11000 duplicate key error" (Some 11000)
          (Some [field]) None.

Definition ana : User := mkUser "anita" "ana@mercado.pe" "clave-secreta" 1690000000000.

Definition sample_request (m : Method) (p : string) (b : JSValue) : Request :=
  mkRequest m p p (Normal b).

(** An ODM that keeps a [createdAt] the body brings, where
    [sample_odm] always writes the time of the save. *)
Definition keeping_odm : Odm :=
  {| ObjectId := decimal;
     cast_campos := fun b => match b with JObj props => props | _ => [] end;
     timestamps := fun b t => match get_prop b "createdAt" with
                              | JNum z => (z, z)
                              | _ => (t, t)
                              end;
     cast_coerced := fun _ => "";
     query_coerced := fun _ _ => false |}.

Ltac unfold_catch :=
  unfold catch_post_respuestas, catch_get_respuestas, catch_get_estadisticas,
    catch_post_login, catch_delete_respuesta, catch_delete_respuestas.

(* ================================================================== *)
(** * Properties *)
(* ================================================================== *)

(** ** Running programs *)

Lemma next_rejection_store (w : World) :
  respuestas (snd (next_rejection w)) = respuestas w
  /\ users (snd (next_rejection w)) = users w
  /\ built (snd (next_rejection w)) = built w
  /\ clock (snd (next_rejection w)) = clock w.
Proof.
  unfold next_rejection. destruct (rejections w); simpl; auto.
Qed.

Lemma calm_next (n : nat) (w : World) :
  calm (S n) w = true ->
  fst (next_rejection w) = None /\ calm n (snd (next_rejection w)) = true.
Proof.
  unfold calm, next_rejection. destruct w as [rs us b c rej]. simpl.
  destruct rej as [|r rest]; simpl.
  - intros _. split; [reflexivity|]. now destruct n.
  - destruct r; simpl; [discriminate|]. auto.
Qed.

(** A call that is not rejected is carried out on the world as it was,
    short of the rejection consumed. *)
Lemma exec_calm `{M : Odm} {A : Type} (c : DbCall A) (n : nat) (w : World) :
  calm (S n) w = true ->
  exec c w = (Normal (fst (resolve c (snd (next_rejection w)))),
              snd (resolve c (snd (next_rejection w)))).
Proof.
  intros Hc. apply calm_next in Hc as [Hn _]. unfold exec.
  destruct (next_rejection w) as [r w']. simpl in *. subst r.
  now destruct (resolve c w').
Qed.

Lemma exec_rejected `{M : Odm} {A : Type} (c : DbCall A) (w : World) (e : Error) :
  fst (next_rejection w) = Some e ->
  exec c w = (Throw e, snd (next_rejection w)).
Proof.
  intros Hn. unfold exec. destruct (next_rejection w) as [r w']. simpl in *.
  now subst r.
Qed.

Lemma exec_resolved `{M : Odm} {A : Type} (c : DbCall A) (w : World) :
  fst (next_rejection w) = None ->
  exec c w = (Normal (fst (resolve c (snd (next_rejection w)))),
              snd (resolve c (snd (next_rejection w)))).
Proof.
  intros Hn. unfold exec. destruct (next_rejection w) as [r w']. simpl in *.
  subst r. now destruct (resolve c w').
Qed.

(** Whatever a call does, the users stay unless it is [User_save]; and
    a rejected call changes neither collection. *)
Lemma exec_Throw_store `{M : Odm} {A : Type} (c : DbCall A) (w w' : World) (e : Error) :
  exec c w = (Throw e, w') -> users w' = users w /\ respuestas w' = respuestas w.
Proof.
  unfold exec. pose proof (next_rejection_store w) as (Hr & Hu & _).
  destruct (next_rejection w) as [[e0|] w0]; simpl in *.
  - intros H. inversion H; subst. auto.
  - destruct (resolve c w0). discriminate.
Qed.

(** ** Values *)

Lemma length_of_string `{E : Engine} (s : string) (n : Z) :
  js_lt (get_prop (JStr s) "length") n = Normal (Z.of_nat (String.length s) <? n).
Proof. reflexivity. Qed.

Lemma truthy_string (s : string) : truthy (JStr s) = true <-> s <> "".
Proof.
  simpl. rewrite negb_true_iff. split.
  - intros H Heq. subst. discriminate.
  - intros H. apply String.eqb_neq. exact H.
Qed.


(** ** POST /api/register *)



(** ** POST /api/respuestas *)

(** C2.  A submission whose nombre or puesto is missing or the empty
    string is answered 400 and leaves the store as it was; a submission
    with both goes to the store with its whole body, whatever its other
    fields are. *)
Theorem submit_prevalidation `{M : Odm}
        (rev : Revision) (env : Env) (body : JSValue) (w : World) :
  let nombre := get_prop body "nombre" in
  let puesto := get_prop body "puesto" in
  ((nombre = JUndefined \/ nombre = JStr "" \/ puesto = JUndefined \/ puesto = JStr "") ->
     run (post_api_respuestas rev env body) w
     = (Json 400 (JObj [("error", JStr "Nombre y puesto son campos obligatorios")]), w))
  /\ (truthy nombre = true -> truthy puesto = true ->
      post_api_respuestas rev env body
      = (await id <- Respuesta_save body
           catch (fun err => Ret (catch_post_respuestas rev env err)) ;;
         Ret (Json 201 (JObj [("mensaje", JStr "Respuesta guardada correctamente");
                              ("id", JStr id)])))).
Proof.
  intros nombre puesto. unfold post_api_respuestas. fold nombre puesto. split.
  - intros H.
    assert (Hf : negb (truthy nombre) || negb (truthy puesto) = true).
    { destruct H as [H|[H|[H|H]]]; rewrite H; simpl;
        rewrite ?orb_true_r; reflexivity. }
    rewrite Hf. reflexivity.
  - intros Hn Hp. rewrite Hn, Hp. reflexivity.
Qed.

Lemma submit_prevalidation_witness :
  let body := JObj [("puesto", JStr "Vendedora"); ("seguridadGeneral", JStr "Buena")] in
  let w := sample_world [] [] [] in
  run (M := sample_odm) (post_api_respuestas Current (sample_env None) body) w
  = (Json 400 (JObj [("error", JStr "Nombre y puesto son campos obligatorios")]), w).
Proof.
  intros body w.
  apply (proj1 (@submit_prevalidation sample_odm Current (sample_env None) body w)).
  left. reflexivity.
Defined.

(** ** POST /api/login *)

(** C3.  Two login requests with usuario and password given, one for a
    name no stored user has, one for a stored user with another
    password, get the same answer: 401 with the one message. *)
Theorem login_same_401 `{M : Odm}
        (env : Env) (body1 body2 : JSValue) (w1 w2 : World) (u : User) :
  truthy (get_prop body1 "usuario") = true ->
  truthy (get_prop body1 "password") = true ->
  truthy (get_prop body2 "usuario") = true ->
  truthy (get_prop body2 "password") = true ->
  calm 1 w1 = true -> calm 1 w2 = true ->
  find (query_usuario (get_prop body1 "usuario")) (users w1) = None ->
  find (query_usuario (get_prop body2 "usuario")) (users w2) = Some u ->
  strict_eq (JStr (password u)) (get_prop body2 "password") = false ->
  fst (run (post_api_login env body1) w1) = fst (run (post_api_login env body2) w2)
  /\ fst (run (post_api_login env body1) w1)
     = Json 401 (JObj [("mensaje", JStr "Credenciales incorrectas")]).
Proof.
  intros Hu1 Hp1 Hu2 Hp2 Hc1 Hc2 Hnone Hsome Hdiff.
  assert (H1 : fst (run (post_api_login env body1) w1)
               = Json 401 (JObj [("mensaje", JStr "Credenciales incorrectas")])).
  { unfold post_api_login. rewrite Hu1, Hp1. simpl. unfold try_await. simpl.
    rewrite (exec_calm _ 0 _ Hc1). simpl.
    destruct (next_rejection_store w1) as (_ & Hu & _). rewrite Hu, Hnone.
    reflexivity. }
  assert (H2 : fst (run (post_api_login env body2) w2)
               = Json 401 (JObj [("mensaje", JStr "Credenciales incorrectas")])).
  { unfold post_api_login. rewrite Hu2, Hp2. cbn [negb orb].
    unfold try_await. cbn [run].
    rewrite (exec_calm _ 0 _ Hc2). cbn [resolve fst snd].
    destruct (next_rejection_store w2) as (_ & Hu & _). rewrite Hu, Hsome.
    rewrite Hdiff. reflexivity. }
  split; congruence.
Qed.

Lemma login_same_401_witness :
  let w := sample_world [] [ana] [] in
  let unknown := JObj [("usuario", JStr "nadie"); ("password", JStr "clave-secreta")] in
  let wrong := JObj [("usuario", JStr "anita"); ("password", JStr "otra-clave")] in
  fst (run (M := sample_odm) (post_api_login (sample_env (Some "production")) unknown) w)
  = fst (run (M := sample_odm) (post_api_login (sample_env (Some "production")) wrong) w).
Proof.
  intros w unknown wrong.
  apply (@login_same_401 sample_odm (sample_env (Some "production"))
           unknown wrong w w ana); reflexivity.
Defined.

(** ** Routing of unmatched API paths *)

(** The 404 layer answers the methods no [app.get] route takes. *)
Lemma unmatched_api_404 `{E : Engine} (rev : Revision) (env : Env) (req : Request)
      (b : JSValue) :
  body req = Normal b ->
  is_get (method req) = false ->
  under_api (path req) = true ->
  endpoint rev env (method req) (path req) b = None ->
  app rev env req = Ret (use_api_star (originalUrl req)).
Proof.
  intros Hb Hm Hp He. unfold app. rewrite Hb, Hm, He, Hp.
  rewrite andb_false_r. reflexivity.
Qed.

(** In the current revision a GET that no route takes always falls to
    [app.get('*')], registered before the 404 layer. *)
Lemma unmatched_get_current `{E : Engine} (env : Env) (req : Request) (b : JSValue) :
  body req = Normal b ->
  is_get (method req) = true ->
  static_has env (path req) = false ->
  endpoint Current env (method req) (path req) b = None ->
  exists r, get_star Current env (originalUrl req) = Some (Ret r)
            /\ app Current env req = Ret r
            /\ status_of r <> Some 404.
Proof.
  intros Hb Hm Hs He. unfold app. rewrite Hb, Hm, Hs, He.
  rewrite andb_false_r. unfold get_star.
  destruct (env_is (NODE_ENV env) "production").
  - destruct (build_index env); [|destruct (public_index env)];
      eexists; (split; [reflexivity|split; [reflexivity|discriminate]]).
  - eexists. split; [reflexivity|split; [reflexivity|discriminate]].
Qed.

(** C4.  The current revision answers [GET /api/nope], a path under
    [/api/] that no endpoint takes, with 200 and the endpoint listing:
    the request never reaches the 404 layer. *)
Theorem unmatched_api_get_is_200 :
  under_api "/api/nope" = true
  /\ endpoint (E := sample_engine) Current (sample_env (Some "development"))
              GET "/api/nope" (JObj []) = None
  /\ app (E := sample_engine) Current (sample_env (Some "development"))
         (sample_request GET "/api/nope" (JObj []))
     = Ret (Json 200 (JObj [("message", JStr "🚀 API en modo desarrollo");
                            ("availableEndpoints", availableEndpoints)])).
Proof. repeat split. Qed.

(** ** Catch blocks *)

Lemma env_is_spec (v : option string) (s : string) :
  env_is v s = true <-> v = Some s.
Proof.
  destruct v as [x|]; simpl.
  - rewrite String.eqb_eq. split; congruence.
  - split; discriminate.
Qed.

Lemma catch_post_register_eq (env : Env) (e : Error) :
  catch_post_register env e
  = if is_duplicate e then
      match err_keyPattern e with
      | Some keys =>
          Json 409 (JObj [("mensaje",
            JStr ((match hd_error keys with
                   | Some f => if String.eqb f "usuario" then "Usuario" else "Email"
                   | None => "Email"
                   end) ++ " ya existe"))])
      | None => Escaped (TypeError "Cannot convert undefined or null to object")
      end
    else
      Json 500 (JObj [("error", JStr "Error al registrar administrador");
                      ("details", details_gate env e "Error interno del servidor")]).
Proof.
  unfold catch_post_register, is_duplicate.
  destruct (err_code e) as [c|]; [|reflexivity].
  destruct (Z.eqb_spec c 11000) as [->|Hc]; [reflexivity|].
  destruct c as [|c|c]; try reflexivity.
  repeat (destruct c as [c|c|]; try reflexivity). congruence.
Qed.

(** A schema validation failure while registering is answered 500, and
    a duplicate key while submitting is answered 500. *)
Lemma register_validation_failure_is_500 :
  ~ spec_uniform_mapping Current H_post_register (sample_env (Some "production"))
      sample_validation_failure
  /\ ~ spec_uniform_mapping Current H_post_respuestas (sample_env (Some "production"))
      (sample_duplicate "_id").
Proof.
  split; intros (Hv & Hd & _).
  - specialize (Hv eq_refl). discriminate Hv.
  - specialize (Hd eq_refl). discriminate Hd.
Qed.

(** C5, amended.  Each handler maps its caught failures in its own catch
    block.  POST /api/respuestas (current revision) answers a
    [ValidationError] with 400 and the per-field messages and anything
    else with 500; POST /api/register answers a duplicate key with 409
    naming Usuario or Email and anything else, a [ValidationError]
    included, with 500; every other catch block, and that of POST
    /api/respuestas in the earlier revision, answers 500. *)
Theorem catch_blocks_mapping (rev : Revision) (env : Env) (e : Error) :
  (forall errs, is_validation e = true -> err_errors e = Some errs ->
     catch_of Current H_post_respuestas env e
     = Json 400 (JObj [("error", JStr "Error de validación");
                       ("details", validation_details errs)]))
  /\ (is_validation e = false ->
      status_of (catch_of Current H_post_respuestas env e) = Some 500)
  /\ (forall keys, is_duplicate e = true -> err_keyPattern e = Some keys ->
      catch_of rev H_post_register env e
      = Json 409 (JObj [("mensaje",
          JStr ((if match hd_error keys with
                    | Some f => String.eqb f "usuario"
                    | None => false
                    end then "Usuario" else "Email") ++ " ya existe"))]))
  /\ (is_duplicate e = false ->
      status_of (catch_of rev H_post_register env e) = Some 500)
  /\ (forall h, h <> H_post_register ->
      (rev = Current -> h <> H_post_respuestas) ->
      status_of (catch_of rev h env e) = Some 500).
Proof.
  refine (conj _ (conj _ (conj _ (conj _ _)))).
  - intros errs Hv He. simpl. unfold catch_post_respuestas.
    unfold is_validation in Hv. rewrite Hv, He. reflexivity.
  - intros Hv. simpl. unfold catch_post_respuestas.
    unfold is_validation in Hv. rewrite Hv. reflexivity.
  - intros keys Hd Hk. simpl. rewrite catch_post_register_eq, Hd, Hk.
    destruct (hd_error keys) as [f|]; [destruct (String.eqb f "usuario")|];
      reflexivity.
  - intros Hd. simpl. rewrite catch_post_register_eq, Hd. reflexivity.
  - intros h Hr Hs. destruct h; try reflexivity; try congruence.
    destruct rev; [exfalso; now apply Hs|reflexivity].
Qed.

Lemma catch_blocks_mapping_witness :
  status_of (catch_of Current H_post_register (sample_env (Some "production"))
                      sample_validation_failure) = Some 500
  /\ catch_of Current H_post_register (sample_env (Some "production"))
              (sample_duplicate "usuario")
     = Json 409 (JObj [("mensaje", JStr "Usuario ya existe")]).
Proof.
  split.
  - apply (proj1 (proj2 (proj2 (proj2
      (catch_blocks_mapping Current (sample_env (Some "production"))
         sample_validation_failure))))).
    reflexivity.
  - apply (proj1 (proj2 (proj2
      (catch_blocks_mapping Current (sample_env (Some "production"))
         (sample_duplicate "usuario")))) ["usuario"]); reflexivity.
Defined.

(** ** What a failure discloses *)

Lemma details_gate_development (env : Env) (e : Error) (generic : string) :
  NODE_ENV env = Some "development" -> details_gate env e generic = JStr (err_message e).
Proof.
  intros H. unfold details_gate. apply env_is_spec in H. now rewrite H.
Qed.

Lemma details_gate_otherwise (env : Env) (e : Error) (generic : string) :
  NODE_ENV env <> Some "development" -> details_gate env e generic = JStr generic.
Proof.
  intros H. unfold details_gate.
  destruct (env_is (NODE_ENV env) "development") eqn:Hd; [|reflexivity].
  apply env_is_spec in Hd. contradiction.
Qed.

(** With [NODE_ENV] unset, which is not production, a failure of the
    list handler is answered with the generic text, not the message. *)
Lemma unset_mode_hides_message :
  let env := sample_env None in
  let r := catch_of Current H_get_respuestas env sample_failure in
  NODE_ENV env <> Some "production"
  /\ disclosed r = JStr "Error interno del servidor"
  /\ disclosed r <> JStr (err_message sample_failure).
Proof.
  repeat split; discriminate.
Qed.

(** In production the current revision still sends the message from
    the catch block of POST /api/respuestas and from the error
    middleware. *)
Lemma current_revision_discloses_in_production (e : Error) (url : string) (w : World) :
  let env := sample_env (Some "production") in
  (is_validation e = false ->
   disclosed (catch_of Current H_post_respuestas env e) = JStr (err_message e))
  /\ disclosed (fst (run (M := sample_odm) (error_middleware Current env url e) w))
     = JStr (err_message e).
Proof.
  split; [|reflexivity].
  intros Hv. simpl. unfold catch_post_respuestas.
  unfold is_validation in Hv. rewrite Hv. reflexivity.
Qed.

(** C6, amended.  Where a failure is answered 500 by a catch block that
    consults the mode (every route handler but POST /api/respuestas of
    the current revision) or by the error middleware of the earlier
    revision, the [details] field is the raw message exactly when
    [NODE_ENV] is ['development']; in every other mode, production or
    not, the answer is the same whatever the message is. *)
Theorem details_only_in_development
        (rev : Revision) (h : Handler) (env : Env) (e : Error) (url : string) :
  (gated rev h = true -> status_of (catch_of rev h env e) = Some 500 ->
   NODE_ENV env = Some "development" ->
   disclosed (catch_of rev h env e) = JStr (err_message e))
  /\ (gated rev h = true -> NODE_ENV env <> Some "development" ->
      forall m, catch_of rev h env (with_message e m) = catch_of rev h env e)
  /\ (NODE_ENV env = Some "development" ->
      error_middleware Earlier env url e
      = Ret (Json 500 (JObj [("error", JStr "Error interno del servidor");
                             ("details", JStr (err_message e))])))
  /\ (NODE_ENV env <> Some "development" ->
      forall m, error_middleware Earlier env url (with_message e m)
                = error_middleware Earlier env url e).
Proof.
  refine (conj _ (conj _ (conj _ _))).
  - intros Hg Hs Hd.
    destruct h; cbn [catch_of gated] in *;
      try (unfold disclosed; simpl; now rewrite details_gate_development).
    + destruct rev; [discriminate Hg|].
      unfold disclosed; simpl. now rewrite details_gate_development.
    + rewrite catch_post_register_eq. rewrite catch_post_register_eq in Hs.
      destruct (is_duplicate e).
      * destruct (err_keyPattern e); discriminate Hs.
      * unfold disclosed; simpl. now rewrite details_gate_development.
  - intros Hg Hd m.
    destruct h; cbn [catch_of gated] in *;
      try (unfold_catch; now rewrite !details_gate_otherwise by assumption).
    + destruct rev; [discriminate Hg|]. unfold_catch.
      now rewrite !details_gate_otherwise by assumption.
    + rewrite !catch_post_register_eq. unfold is_duplicate. simpl.
      now rewrite !details_gate_otherwise by assumption.
  - intros Hd. simpl. now rewrite details_gate_development.
  - intros Hd m. simpl. now rewrite !details_gate_otherwise by assumption.
Qed.

Lemma details_only_in_development_witness :
  disclosed (catch_of Earlier H_post_respuestas (sample_env (Some "development"))
                      sample_failure)
  = JStr "connect ECONNREFUSED 10.0.0.7:27017"
  /\ catch_of Current H_get_respuestas (sample_env None)
              (with_message sample_failure "otro mensaje")
     = catch_of Current H_get_respuestas (sample_env None) sample_failure.
Proof.
  split.
  - apply (proj1 (details_only_in_development Earlier H_post_respuestas
                    (sample_env (Some "development")) sample_failure ""));
      reflexivity.
  - apply (proj1 (proj2 (details_only_in_development Current H_get_respuestas
                           (sample_env None) sample_failure ""))).
    + reflexivity.
    + discriminate.
Defined.

(** ** The store *)

Lemma resolve_rejections `{M : Odm} {A : Type} (c : DbCall A) (w : World) :
  rejections (snd (resolve c w)) = rejections w
  /\ clock (snd (resolve c w)) = clock w.
Proof.
  destruct c; try (split; reflexivity).
  destruct gte; split; reflexivity.
Qed.

Lemma calm_resolve `{M : Odm} {A : Type} (c : DbCall A) (n : nat) (w : World) :
  calm n (snd (resolve c w)) = calm n w.
Proof.
  unfold calm. now rewrite (proj1 (resolve_rejections c w)).
Qed.

(** One awaited call in a calm world: its result, and what is left. *)
Lemma run_await_calm `{M : Odm} {A R : Type} (c : DbCall A) (h : Error -> Prog R)
      (k : A -> Prog R) (n : nat) (w : World) :
  calm (S n) w = true ->
  let w0 := snd (next_rejection w) in
  run (try_await c h k) w = run (k (fst (resolve c w0))) (snd (resolve c w0))
  /\ calm n (snd (resolve c w0)) = true
  /\ respuestas w0 = respuestas w /\ users w0 = users w /\ clock w0 = clock w.
Proof.
  intros Hc w0. unfold try_await. cbn [run].
  rewrite (exec_calm c n w Hc). fold w0.
  destruct (calm_next n w Hc) as [_ Hn].
  destruct (next_rejection_store w) as (Hr & Hu & _ & Hk).
  rewrite calm_resolve. auto.
Qed.

Lemma run_await_rejected `{M : Odm} {A R : Type} (c : DbCall A) (h : Error -> Prog R)
      (k : A -> Prog R) (w : World) (e : Error) :
  fst (next_rejection w) = Some e ->
  run (try_await c h k) w = run (h e) (snd (next_rejection w)).
Proof.
  intros He. unfold try_await. cbn [run]. now rewrite (exec_rejected c w He).
Qed.

(** ** DELETE /api/respuestas, then the list and the statistics *)

(** C7.  Deleting all surveys empties the collection and answers 200
    with the number deleted; the list endpoint then answers the empty
    array and the statistics a total of 0. *)
Theorem delete_all_then_empty `{M : Odm} (env : Env) (w : World) :
  calm 3 w = true ->
  let out := run (delete_api_respuestas env) w in
  fst out = Json 200 (JObj [("mensaje",
              JStr (decimal (List.length (respuestas w))
                    ++ " respuestas eliminadas correctamente"))])
  /\ respuestas (snd out) = []
  /\ fst (run (get_api_respuestas env) (snd out)) = Json 200 (JArr [])
  /\ fst (run (get_api_estadisticas env) (snd out))
     = Json 200 (JObj [("total", JNum 0); ("ultimaSemana", JNum 0);
                       ("timestamp", JDate (clock w))]).
Proof.
  intros Hc out. subst out. unfold delete_api_respuestas.
  destruct (run_await_calm Respuesta_deleteMany
              (fun err => Ret (catch_delete_respuestas env err))
              (fun deletedCount => Ret (Json 200 (JObj [("mensaje",
                 JStr (decimal deletedCount
                       ++ " respuestas eliminadas correctamente"))])))
              2 w Hc) as (Hrun & Hc2 & Hr & _ & Hk).
  rewrite Hrun. cbn [run fst snd resolve] in *. rewrite Hr.
  set (w1 := set_respuestas [] (built (snd (next_rejection w)))
                            (snd (next_rejection w))) in *.
  assert (Hr1 : respuestas w1 = []) by reflexivity.
  assert (Hk1 : clock w1 = clock w) by exact Hk.
  refine (conj eq_refl (conj Hr1 (conj _ _))).
  - unfold get_api_respuestas.
    destruct (run_await_calm Respuesta_find_sorted
                (fun err => Ret (catch_get_respuestas env err))
                (fun respuestas => Ret (Json 200 (JArr (map Respuesta_toJSON respuestas))))
                1 w1 Hc2) as (Hrun1 & _ & Hr2 & _).
    rewrite Hrun1. cbn [run fst snd resolve]. rewrite Hr2, Hr1. reflexivity.
  - unfold get_api_estadisticas.
    match goal with
    | |- fst (run (try_await ?c ?h ?k) w1) = _ =>
        destruct (run_await_calm c h k 1 w1 Hc2) as (Hrun1 & Hc1 & Hr2 & _ & Hk2)
    end.
    rewrite Hrun1. cbn [run fst snd resolve] in *.
    match goal with
    | |- fst (run (try_await ?c ?h ?k) ?w') = _ =>
        destruct (run_await_calm c h k 0 w' Hc1) as (Hrun2 & _ & Hr3 & _ & Hk3)
    end.
    rewrite Hrun2. cbn [run fst snd resolve] in *.
    rewrite Hr3, Hr2, Hr1, Hk3, Hk2, Hk1. reflexivity.
Qed.

Lemma delete_all_then_empty_witness :
  let d := mkRespuesta "0" [("nombre", JStr "Ana")] 1699999000000 1699999000000 in
  let w := sample_world [d; d] [] [] in
  fst (run (M := sample_odm) (delete_api_respuestas (sample_env None)) w)
  = Json 200 (JObj [("mensaje", JStr "2 respuestas eliminadas correctamente")]).
Proof.
  intros d w.
  apply (proj1 (@delete_all_then_empty sample_odm (sample_env None) w eq_refl)).
Defined.

(** ** GET /api/estadisticas *)

(** When a count is rejected the answer is 500, not 200. *)
Lemma estadisticas_rejected_is_500 :
  let r := fst (run (M := sample_odm) (get_api_estadisticas (sample_env None))
                    (sample_world [] [] [Some sample_failure])) in
  status_of r = Some 500 /\ status_of r <> Some 200.
Proof. split; [reflexivity|discriminate]. Qed.

(** C8, amended.  When both counts resolve, the statistics answer 200
    with the total, the number of records whose creation timestamp is
    at or after the clock minus 7*24*60*60*1000 ms (a record exactly
    seven days old counts, an older one does not), and a timestamp;
    when a count is rejected, the first or the second, the answer is
    the 500 of the catch block. *)
Theorem estadisticas_last_week `{M : Odm} (env : Env) (w : World) :
  let since := clock w - 7 * 24 * 60 * 60 * 1000 in
  let week := filter (gte_createdAt since) (respuestas w) in
  (calm 2 w = true ->
   fst (run (get_api_estadisticas env) w)
   = Json 200 (JObj [("total", JNum (Z.of_nat (List.length (respuestas w))));
                     ("ultimaSemana", JNum (Z.of_nat (List.length week)));
                     ("timestamp", JDate (clock w))]))
  /\ (forall d, In d week <-> In d (respuestas w) /\ since <= createdAt d)
  /\ (forall e, fst (next_rejection w) = Some e ->
      fst (run (get_api_estadisticas env) w) = catch_get_estadisticas env e)
  /\ (forall e, fst (next_rejection w) = None ->
      fst (next_rejection (snd (next_rejection w))) = Some e ->
      fst (run (get_api_estadisticas env) w) = catch_get_estadisticas env e)
  /\ (forall e, catch_get_estadisticas env e
      = Json 500 (JObj [("error", JStr "Error al obtener estadísticas");
                        ("details", details_gate env e "Error interno del servidor")])).
Proof.
  intros since week. refine (conj _ (conj _ (conj _ (conj _ _)))).
  - intros Hc. unfold get_api_estadisticas.
    match goal with
    | |- fst (run (try_await ?c ?h ?k) w) = _ =>
        destruct (run_await_calm c h k 1 w Hc) as (Hrun1 & Hc1 & Hr1 & _ & Hk1)
    end.
    rewrite Hrun1. cbn [run fst snd resolve] in *.
    match goal with
    | |- fst (run (try_await ?c ?h ?k) ?w') = _ =>
        destruct (run_await_calm c h k 0 w' Hc1) as (Hrun2 & _ & Hr2 & _ & Hk2)
    end.
    rewrite Hrun2. cbn [run fst snd resolve] in *.
    rewrite Hr2, Hr1, Hk2, Hk1. reflexivity.
  - intros d. unfold week. rewrite filter_In. unfold gte_createdAt.
    rewrite Z.leb_le. reflexivity.
  - intros e He. unfold get_api_estadisticas.
    rewrite (run_await_rejected _ _ _ w He). reflexivity.
  - intros e Hn He. unfold get_api_estadisticas, try_await. cbn [run].
    rewrite (exec_resolved _ w Hn). cbn [resolve fst snd run].
    rewrite (exec_rejected _ _ He). reflexivity.
  - reflexivity.
Qed.

Lemma estadisticas_last_week_witness :
  let t := 1700000000000 in
  let exact := mkRespuesta "a" [] (t - 604800000) (t - 604800000) in
  let older := mkRespuesta "b" [] (t - 604800001) (t - 604800001) in
  fst (run (M := sample_odm) (get_api_estadisticas (sample_env None))
           (sample_world [exact; older] [] []))
  = Json 200 (JObj [("total", JNum 2); ("ultimaSemana", JNum 1);
                    ("timestamp", JDate t)])
  /\ fst (run (M := sample_odm) (get_api_estadisticas (sample_env None))
              (sample_world [exact; older] [] [None; Some sample_failure]))
     = Json 500 (JObj [("error", JStr "Error al obtener estadísticas");
                       ("details", JStr "Error interno del servidor")]).
Proof.
  intros t exact older. split.
  - apply (proj1 (@estadisticas_last_week sample_odm (sample_env None)
                    (sample_world [exact; older] [] []))).
    reflexivity.
  - apply (proj1 (proj2 (proj2 (proj2
             (@estadisticas_last_week sample_odm (sample_env None)
                (sample_world [exact; older] [] [None; Some sample_failure])))))
             sample_failure); reflexivity.
Defined.

(** ** What a saved survey carries *)

(** An accepted submission stores the document Mongoose builds from the
    whole body; its two timestamps are those the ODM writes for that
    body at that time. *)
Lemma submit_stores `{M : Odm} (rev : Revision) (env : Env) (body : JSValue) (w : World) :
  truthy (get_prop body "nombre") = true ->
  truthy (get_prop body "puesto") = true ->
  calm 1 w = true ->
  let d := new_Respuesta body (clock w) (built w) in
  let out := run (post_api_respuestas rev env body) w in
  fst out = Json 201 (JObj [("mensaje", JStr "Respuesta guardada correctamente");
                            ("id", JStr (_id d))])
  /\ respuestas (snd out) = (respuestas w ++ [d])%list
  /\ (createdAt d, updatedAt d) = timestamps body (clock w).
Proof.
  intros Hn Hp Hc d out. subst out.
  unfold post_api_respuestas. rewrite Hn, Hp. cbn [negb orb].
  match goal with
  | |- context [run (try_await ?c ?h ?k) w] =>
      destruct (run_await_calm c h k 0 w Hc) as (Hrun & _ & Hr & _ & Hk)
  end.
  rewrite Hrun. cbn [run fst snd resolve].
  destruct (next_rejection_store w) as (_ & _ & Hb & _).
  rewrite Hr, Hk, Hb. fold d.
  refine (conj eq_refl (conj eq_refl _)).
  unfold d, new_Respuesta. simpl. now destruct (timestamps body (clock w)).
Qed.

(** Whether a [createdAt] in the body reaches the store is the ODM's
    doing: the handler hands the body over as it came. *)
Lemma timestamps_follow_the_odm :
  let body := JObj [("nombre", JStr "Ana"); ("puesto", JStr "Vendedora");
                    ("createdAt", JNum 5)] in
  let w := sample_world [] [] [] in
  map createdAt (respuestas (snd (run (M := sample_odm)
        (post_api_respuestas Current (sample_env None) body) w))) = [clock w]
  /\ map createdAt (respuestas (snd (run (M := keeping_odm)
        (post_api_respuestas Current (sample_env None) body) w))) = [5].
Proof. split; reflexivity. Qed.

(** ** Length rules and values without a length *)

(** C10.  With the right secret and the three fields present, a
    password that is a number or [true] has no [length], the comparison
    with 8 is false and the request is not refused for its password: if
    the usuario passes its own rule the user goes to the store.  The
    same holds for a usuario that is a number or [true] and the rule
    of 4. *)
Theorem register_length_bypass `{E : Engine}
        (env : Env) (body : JSValue) :
  let u := get_prop body "usuario" in
  let e := get_prop body "email" in
  let p := get_prop body "password" in
  let lengthless := fun v => match v with JNum _ | JBool _ => True | _ => False end in
  let stored :=
    await saved <- User_save u e p
      catch (fun err => Ret (catch_post_register env err)) ;;
    Ret (Json 201 (JObj [("mensaje", JStr "Administrador registrado exitosamente")])) in
  strict_eq (get_prop body "token") (env_value (ADMIN_REGISTER_TOKEN env)) = true ->
  truthy u = true -> truthy e = true -> truthy p = true ->
  (lengthless p ->
   js_lt (get_prop p "length") 8 = Normal false
   /\ (js_lt (get_prop u "length") 4 = Normal false ->
       post_api_register env body = stored))
  /\ (lengthless u ->
      js_lt (get_prop u "length") 4 = Normal false
      /\ (js_lt (get_prop p "length") 8 = Normal false ->
          post_api_register env body = stored)).
Proof.
  intros u e p lengthless stored Htok Hu He Hp.
  assert (Hgo : js_lt (get_prop p "length") 8 = Normal false ->
                js_lt (get_prop u "length") 4 = Normal false ->
                post_api_register env body = stored).
  { intros H8 H4. unfold post_api_register. fold u e p.
    rewrite Htok, Hu, He, Hp, H8, H4. reflexivity. }
  split; intros Hl.
  - assert (H8 : js_lt (get_prop p "length") 8 = Normal false)
      by (destruct p; try contradiction; reflexivity).
    auto.
  - assert (H4 : js_lt (get_prop u "length") 4 = Normal false)
      by (destruct u; try contradiction; reflexivity).
    auto.
Qed.

Lemma register_length_bypass_witness :
  let body := JObj [("token", JStr "s3cr3t"); ("usuario", JStr "rosa");
                    ("email", JStr "rosa@mercado.pe"); ("password", JNum 12345)] in
  run (M := sample_odm) (post_api_register (E := sample_engine) (sample_env None) body)
      (sample_world [] [] [])
  = (Json 201 (JObj [("mensaje", JStr "Administrador registrado exitosamente")]),
     sample_world [] [mkUser "rosa" "rosa@mercado.pe" "12345" 1700000000000] []).
Proof.
  intros body.
  rewrite (proj2 (proj1 (@register_length_bypass sample_engine (sample_env None) body
                           eq_refl eq_refl eq_refl eq_refl) I) eq_refl).
  reflexivity.
Defined.

(* ================================================================== *)
(** * Further properties of the handlers *)
(* ================================================================== *)

(** ** Values and calls *)

Lemma strict_eq_string (s : string) (v : JSValue) :
  strict_eq (JStr s) v = true <-> v = JStr s.
Proof.
  split.
  - destruct v; simpl; try discriminate. intros H.
    apply String.eqb_eq in H. now subst.
  - intros ->. simpl. apply String.eqb_refl.
Qed.

Lemma strict_eq_env_value (v : JSValue) (x : option string) :
  strict_eq v (env_value x) = true <-> v = env_value x.
Proof.
  destruct x as [s|]; simpl.
  - split.
    + destruct v; simpl; try discriminate. intros H.
      apply String.eqb_eq in H. now subst.
    + intros ->. simpl. apply String.eqb_refl.
  - split.
    + destruct v; simpl; try discriminate. reflexivity.
    + intros ->. reflexivity.
Qed.

(** What one awaited call can do to the two collections. *)
Lemma exec_users `{M : Odm} {A : Type} (c : DbCall A) (w : World) :
  exists l, users (snd (exec c w)) = (users w ++ l)%list /\ (List.length l <= 1)%nat.
Proof.
  unfold exec. destruct (next_rejection_store w) as (_ & Hu & _).
  destruct (next_rejection w) as [[e|] w0]; simpl in *.
  - exists []. rewrite app_nil_r. auto.
  - destruct (resolve c w0) as [a w1] eqn:Hr. simpl.
    destruct c; try destruct gte; simpl in Hr; inversion Hr; subst; simpl;
      try (exists []; rewrite app_nil_r; now auto).
    eexists. rewrite Hu. split; [reflexivity|simpl; auto].
Qed.

Lemma exec_read_only `{M : Odm} {A : Type} (c : DbCall A) (w : World) :
  read_only c = true ->
  respuestas (snd (exec c w)) = respuestas w /\ users (snd (exec c w)) = users w.
Proof.
  intros Hc. unfold exec. destruct (next_rejection_store w) as (Hr & Hu & _).
  destruct (next_rejection w) as [[e|] w0]; simpl in *; [auto|].
  destruct (resolve c w0) as [a w1] eqn:Hres. simpl.
  destruct c; try destruct gte; try discriminate Hc;
    simpl in Hres; inversion Hres; subst; auto.
Qed.

(** A relation kept by every awaited call is kept by every program. *)
Lemma run_preserves `{M : Odm} (P : World -> World -> Prop) :
  (forall w, P w w) ->
  (forall a b c, P a b -> P b c -> P a c) ->
  (forall (A : Type) (c : DbCall A) (w : World), P w (snd (exec c w))) ->
  forall (R : Type) (p : Prog R) (w : World), P w (snd (run p w)).
Proof.
  intros Hrefl Htrans Hexec R p.
  induction p as [r|k IH|A c k IH]; intros w; cbn [run].
  - apply Hrefl.
  - apply IH.
  - specialize (Hexec A c w). destruct (exec c w) as [r w']. simpl in Hexec.
    eapply Htrans; [exact Hexec|apply IH].
Qed.

(** A handler that awaits one call and then answers. *)
Lemma run_one_call `{M : Odm} {A R : Type} (c : DbCall A) (h : Error -> R) (k : A -> R)
      (w : World) :
  run (try_await c (fun e => Ret (h e)) (fun a => Ret (k a))) w
  = (match fst (exec c w) with Normal a => k a | Throw e => h e end, snd (exec c w)).
Proof.
  unfold try_await. cbn [run]. destruct (exec c w) as [[a|e] w']; reflexivity.
Qed.

Lemma find_app_last {A : Type} (f : A -> bool) (l : list A) (x : A) :
  (forall y, In y l -> f y = false) -> f x = true -> find f (l ++ [x]) = Some x.
Proof.
  intros Hl Hx. induction l as [|y l IH]; simpl.
  - now rewrite Hx.
  - rewrite (Hl y (or_introl eq_refl)). apply IH. intros z Hz. apply Hl. now right.
Qed.

(** ** POST /api/login *)

(** A login is answered 200 only for a stored user that the usuario
    filter selects and whose stored password is, as a string, the
    password of the request; the answer then carries that user's
    usuario, email and fechaRegistro and no password. *)
Theorem login_success_sound `{M : Odm} (env : Env) (body : JSValue) (w : World) :
  status_of (fst (run (post_api_login env body) w)) = Some 200 ->
  exists u, In u (users w)
    /\ query_usuario (get_prop body "usuario") u = true
    /\ get_prop body "password" = JStr (password u)
    /\ fst (run (post_api_login env body) w)
       = Json 200 (JObj [("mensaje", JStr "Login exitoso"); ("user", login_user u)])
    /\ get_prop (login_user u) "password" = JUndefined.
Proof.
  unfold post_api_login.
  destruct (negb (truthy (get_prop body "usuario"))
            || negb (truthy (get_prop body "password"))); [discriminate|].
  unfold try_await. cbn [run]. unfold exec.
  destruct (next_rejection_store w) as (_ & Hu & _).
  destruct (next_rejection w) as [[e|] w0]; cbn [fst snd run resolve] in *;
    [discriminate|].
  destruct (find (query_usuario (get_prop body "usuario")) (users w0)) as [u|] eqn:Hf;
    [|discriminate].
  destruct (strict_eq (JStr (password u)) (get_prop body "password")) eqn:Hp;
    cbn [negb fst run]; [|discriminate].
  intros _. apply find_some in Hf as [Hin Hq]. rewrite Hu in Hin.
  apply strict_eq_string in Hp. exists u. auto.
Qed.

Lemma login_success_sound_witness :
  let body := JObj [("usuario", JStr "anita"); ("password", JStr "clave-secreta")] in
  exists u, In u [ana] /\ get_prop body "password" = JStr (password u).
Proof.
  intros body.
  destruct (@login_success_sound sample_odm (sample_env None) body
              (sample_world [] [ana] []) eq_refl) as (u & Hin & _ & Hp & _).
  exists u. split; assumption.
Defined.

(** A password that is not a string never logs in, whatever is stored. *)
Theorem login_password_must_be_string `{M : Odm} (env : Env) (body : JSValue) (w : World) :
  (forall s, get_prop body "password" <> JStr s) ->
  status_of (fst (run (post_api_login env body) w)) <> Some 200.
Proof.
  intros Hns. unfold post_api_login.
  destruct (negb (truthy (get_prop body "usuario"))
            || negb (truthy (get_prop body "password"))); [discriminate|].
  unfold try_await. cbn [run].
  destruct (exec (User_findOne (get_prop body "usuario")) w) as [[[u|]|e] w'];
    cbn [run fst]; try discriminate.
  destruct (strict_eq (JStr (password u)) (get_prop body "password")) eqn:Hp.
  - apply strict_eq_string in Hp. now apply Hns in Hp.
  - discriminate.
Qed.

Lemma login_password_must_be_string_witness :
  status_of (fst (run (M := sample_odm)
     (post_api_login (sample_env None)
        (JObj [("usuario", JStr "anita"); ("password", JNum 12345)]))
     (sample_world [] [mkUser "anita" "a@b" "12345" 0] []))) <> Some 200.
Proof.
  apply (@login_password_must_be_string sample_odm). intros s. discriminate.
Defined.

(** ** POST /api/register *)

Lemma catch_post_register_status (env : Env) (e : Error) :
  status_of (catch_post_register env e) = Some 409
  \/ status_of (catch_post_register env e) = Some 500
  \/ status_of (catch_post_register env e) = None.
Proof.
  rewrite catch_post_register_eq.
  destruct (is_duplicate e); [destruct (err_keyPattern e)|]; simpl; auto.
Qed.

(** A register request is answered 403 exactly when its token is not
    the configured value; with [ADMIN_REGISTER_TOKEN] unset the
    configured value is [undefined], so a request that sends no token
    is not refused and one that sends any token is. *)
Theorem register_403_iff `{E : Engine} `{M : Odm} (env : Env) (body : JSValue) (w : World) :
  (status_of (fst (run (post_api_register env body) w)) = Some 403
   <-> get_prop body "token" <> env_value (ADMIN_REGISTER_TOKEN env))
  /\ (ADMIN_REGISTER_TOKEN env = None ->
      (status_of (fst (run (post_api_register env body) w)) = Some 403
       <-> get_prop body "token" <> JUndefined)).
Proof.
  assert (Hiff : status_of (fst (run (post_api_register env body) w)) = Some 403
                 <-> get_prop body "token" <> env_value (ADMIN_REGISTER_TOKEN env)).
  { unfold post_api_register.
    destruct (strict_eq (get_prop body "token") (env_value (ADMIN_REGISTER_TOKEN env)))
      eqn:Ht; cbn [negb].
    - apply strict_eq_env_value in Ht. split; [|intros Hn; now elim Hn].
      intros H. exfalso. revert H.
      destruct (negb (truthy (get_prop body "usuario"))
                || negb (truthy (get_prop body "email"))
                || negb (truthy (get_prop body "password"))); [discriminate|].
      assert (Hc : forall e, status_of (catch_post_register env e) <> Some 403).
      { intros e. destruct (catch_post_register_status env e) as [H|[H|H]];
          rewrite H; discriminate. }
      destruct (js_lt (get_prop (get_prop body "password") "length") 8)
        as [[|]|e1]; cbn [try_eval run fst]; [discriminate| |apply Hc].
      destruct (js_lt (get_prop (get_prop body "usuario") "length") 4)
        as [[|]|e2]; cbn [try_eval run fst]; [discriminate| |apply Hc].
      unfold try_await. cbn [run].
      destruct (exec _ w) as [[[]|e3] w']; cbn [run fst]; [discriminate|apply Hc].
    - split; [|reflexivity]. intros _ Heq.
      apply strict_eq_env_value in Heq. congruence. }
  split; [exact Hiff|]. intros Hnone. rewrite Hnone in Hiff. exact Hiff.
Qed.

Lemma register_403_iff_witness :
  let env := mkEnv None None None 1 "v18" (fun _ => false) false false sample_failure in
  status_of (fst (run (M := sample_odm)
     (post_api_register (E := sample_engine) env
        (JObj [("usuario", JStr "rosa"); ("email", JStr "r@m.pe");
               ("password", JStr "12345678")]))
     (sample_world [] [] []))) <> Some 403.
Proof.
  intros env H.
  apply (proj1 (proj2 (@register_403_iff sample_engine sample_odm env _ _) eq_refl)) in H.
  now apply H.
Defined.

Lemma long_string_truthy (s : string) (n : nat) :
  (S n <= String.length s)%nat -> truthy (JStr s) = true.
Proof. destruct s; simpl; [lia|reflexivity]. Qed.

(** Register, then log in.  Take a registration with the configured
    token, string fields, a usuario of 4 or more and a password of 8 or
    more, whose usuario and whose email no stored user has (so that
    neither unique index can refuse it), and a store that carries out
    the two calls.  It is answered 201 and stores the fields as they
    came; the same usuario and password then log in, and the answer
    carries the usuario, the email and the time of registration. *)
Theorem register_then_login `{E : Engine} `{M : Odm}
        (env : Env) (u e p : string) (reg login : JSValue) (w : World) :
  get_prop reg "token" = env_value (ADMIN_REGISTER_TOKEN env) ->
  get_prop reg "usuario" = JStr u ->
  get_prop reg "email" = JStr e ->
  get_prop reg "password" = JStr p ->
  (4 <= String.length u)%nat -> e <> "" -> (8 <= String.length p)%nat ->
  get_prop login "usuario" = JStr u ->
  get_prop login "password" = JStr p ->
  (forall x, In x (users w) -> usuario x <> u) ->
  (forall x, In x (users w) -> email x <> e) ->
  calm 2 w = true ->
  let out := run (post_api_register env reg) w in
  fst out = Json 201 (JObj [("mensaje", JStr "Administrador registrado exitosamente")])
  /\ users (snd out) = (users w ++ [mkUser u e p (clock w)])%list
  /\ fst (run (post_api_login env login) (snd out))
     = Json 200 (JObj [("mensaje", JStr "Login exitoso");
                       ("user", JObj [("usuario", JStr u); ("email", JStr e);
                                      ("fechaRegistro", JDate (clock w))])]).
Proof.
  intros Htok Hu He Hp Hlu Hne Hlp Hlu' Hlp' Hfresh Hfresh_email Hc out.
  assert (Hreg : out = run (try_await (User_save (JStr u) (JStr e) (JStr p))
                    (fun err => Ret (catch_post_register env err))
                    (fun _ => Ret (Json 201 (JObj [("mensaje",
                       JStr "Administrador registrado exitosamente")])))) w).
  { subst out. unfold post_api_register. rewrite Htok, Hu, He, Hp.
    rewrite (proj2 (strict_eq_env_value _ _) eq_refl).
    rewrite (long_string_truthy u (n := 3) Hlu), (long_string_truthy p (n := 7) Hlp).
    rewrite (proj2 (truthy_string e) Hne). cbn [negb orb].
    rewrite !length_of_string.
    replace (Z.of_nat (String.length p) <? 8) with false
      by (symmetry; apply Z.ltb_ge; lia).
    replace (Z.of_nat (String.length u) <? 4) with false
      by (symmetry; apply Z.ltb_ge; lia).
    reflexivity. }
  clearbody out. subst out.
  destruct (run_await_calm (User_save (JStr u) (JStr e) (JStr p))
              (fun err => Ret (catch_post_register env err))
              (fun _ => Ret (Json 201 (JObj [("mensaje",
                 JStr "Administrador registrado exitosamente")])))
              1 w Hc) as (Hrun & Hc1 & _ & Hus & Hk).
  rewrite Hrun. cbn [run fst snd resolve] in *.
  set (w1 := set_users _ _) in *.
  assert (Hw1 : users w1 = (users w ++ [mkUser u e p (clock w)])%list).
  { unfold w1. cbn [users set_users]. rewrite Hus, Hk. reflexivity. }
  refine (conj eq_refl (conj Hw1 _)).
  unfold post_api_login. rewrite Hlu', Hlp'.
  rewrite (long_string_truthy u (n := 3) Hlu), (long_string_truthy p (n := 7) Hlp). cbn [negb orb].
  match goal with
  | |- fst (run (try_await ?c ?h ?k) w1) = _ =>
      destruct (run_await_calm c h k 0 w1 Hc1) as (Hrun1 & _ & _ & Hus1 & _)
  end.
  rewrite Hrun1. cbn [resolve fst snd]. rewrite Hus1, Hw1.
  rewrite (find_app_last (query_usuario (JStr u)) (users w) (mkUser u e p (clock w))).
  - cbn [password]. rewrite (proj2 (strict_eq_string p (JStr p)) eq_refl). reflexivity.
  - intros y Hy. simpl. apply String.eqb_neq. intros Heq. apply (Hfresh y Hy).
    now symmetry.
  - simpl. apply String.eqb_refl.
Qed.

Lemma register_then_login_witness :
  let reg := JObj [("token", JStr "s3cr3t"); ("usuario", JStr "rosa");
                   ("email", JStr "rosa@mercado.pe"); ("password", JStr "12345678")] in
  let login := JObj [("usuario", JStr "rosa"); ("password", JStr "12345678")] in
  let w := sample_world [] [ana] [] in
  fst (run (M := sample_odm) (post_api_login (sample_env None) login)
           (snd (run (M := sample_odm)
                     (post_api_register (E := sample_engine) (sample_env None) reg) w)))
  = Json 200 (JObj [("mensaje", JStr "Login exitoso");
                    ("user", JObj [("usuario", JStr "rosa");
                                   ("email", JStr "rosa@mercado.pe");
                                   ("fechaRegistro", JDate 1700000000000)])]).
Proof.
  intros reg login w.
  refine (proj2 (proj2 (@register_then_login sample_engine sample_odm (sample_env None)
            "rosa" "rosa@mercado.pe" "12345678" reg login w
            eq_refl eq_refl eq_refl eq_refl _ _ _ eq_refl eq_refl _ _ eq_refl))).
  - simpl. lia.
  - discriminate.
  - simpl. lia.
  - intros x [<-|[]]. discriminate.
  - intros x [<-|[]]. discriminate.
Defined.

(** ** The application as a whole *)

(** No request removes or changes a stored user: after any request the
    users are the users before, followed by those it added. *)
Theorem users_append_only `{E : Engine} `{M : Odm}
        (rev : Revision) (env : Env) (req : Request) (w : World) :
  exists added, users (snd (run (app rev env req) w)) = (users w ++ added)%list.
Proof.
  apply (run_preserves (fun a b => exists l, users b = (users a ++ l)%list)).
  - intros a. exists []. now rewrite app_nil_r.
  - intros a b c [l1 H1] [l2 H2]. exists (l1 ++ l2)%list.
    now rewrite H2, H1, app_assoc.
  - intros A c a. destruct (exec_users c a) as (l & Hl & _). now exists l.
Qed.

Lemma quiet_error_middleware `{M : Odm} (rev : Revision) (env : Env) (url : string)
      (e : Error) (w : World) :
  snd (run (error_middleware rev env url e) w) = w
  /\ status_of (fst (run (error_middleware rev env url e) w)) = Some 500.
Proof. destruct rev; split; reflexivity. Qed.

Lemma quiet_get_star `{M : Odm} (rev : Revision) (env : Env) (url : string)
      (p : Prog Reply) (w : World) :
  get_star rev env url = Some p -> snd (run p w) = w.
Proof.
  unfold get_star. intros H.
  destruct rev, (env_is (NODE_ENV env) "production"), (build_index env),
    (public_index env); inversion H; subst; try reflexivity;
    apply quiet_error_middleware.
Qed.

Lemma reads_get_api_respuestas `{M : Odm} (env : Env) (w : World) :
  respuestas (snd (run (get_api_respuestas env) w)) = respuestas w
  /\ users (snd (run (get_api_respuestas env) w)) = users w.
Proof.
  unfold get_api_respuestas. rewrite run_one_call. cbn [snd].
  now apply exec_read_only.
Qed.

Lemma reads_get_api_estadisticas `{M : Odm} (env : Env) (w : World) :
  respuestas (snd (run (get_api_estadisticas env) w)) = respuestas w
  /\ users (snd (run (get_api_estadisticas env) w)) = users w.
Proof.
  unfold get_api_estadisticas, try_await. cbn [run].
  pose proof (exec_read_only (Respuesta_countDocuments None) w eq_refl) as [Hr Hu].
  destruct (exec (Respuesta_countDocuments None) w) as [[n|e] w1];
    cbn [run snd] in *; [|auto].
  set (c := Respuesta_countDocuments _).
  pose proof (exec_read_only c w1 eq_refl) as [Hr1 Hu1].
  destruct (exec c w1) as [[m|e] w2]; cbn [run snd] in *; split; congruence.
Qed.

(** GET and HEAD requests are safe: whatever the path, the mode and the
    outcome of the calls, both collections are left as they were. *)
Theorem get_is_read_only `{E : Engine} `{M : Odm}
        (rev : Revision) (env : Env) (req : Request) (w : World) :
  is_get (method req) = true ->
  respuestas (snd (run (app rev env req) w)) = respuestas w
  /\ users (snd (run (app rev env req) w)) = users w.
Proof.
  intros Hm. unfold app. destruct (body req) as [b|e].
  2:{ now rewrite (proj1 (quiet_error_middleware rev env (originalUrl req) e w)). }
  rewrite Hm.
  destruct (env_is (NODE_ENV env) "production" && true && static_has env (path req));
    [split; reflexivity|].
  unfold endpoint.
  assert (Hp : is_post (method req) = false) by (destruct (method req); easy).
  assert (Hd : is_delete (method req) = false) by (destruct (method req); easy).
  rewrite Hm, Hp, Hd. cbn [andb].
  destruct (route_eq "/api/health" (path req)); [destruct rev; split; reflexivity|].
  destruct (route_eq "/api/respuestas" (path req)); [apply reads_get_api_respuestas|].
  destruct (route_eq "/api/estadisticas" (path req));
    [apply reads_get_api_estadisticas|].
  destruct (get_star rev env (originalUrl req)) as [p|] eqn:Hs.
  - now rewrite (quiet_get_star _ _ _ w Hs).
  - destruct (under_api (path req)); split; reflexivity.
Qed.

Lemma get_is_read_only_witness :
  let d := mkRespuesta "0" [("nombre", JStr "Ana")] 1699999000000 1699999000000 in
  let w := sample_world [d] [ana] [Some sample_failure] in
  respuestas (snd (run (M := sample_odm)
     (app (E := sample_engine) Current (sample_env (Some "production"))
          (sample_request HEAD "/api/estadisticas" (JObj []))) w)) = [d].
Proof.
  intros d w.
  apply (proj1 (@get_is_read_only sample_engine sample_odm Current
                  (sample_env (Some "production"))
                  (sample_request HEAD "/api/estadisticas" (JObj [])) w eq_refl)).
Defined.

(** A request whose body the parsers reject reaches no route and no
    call: it is answered 500 by the error middleware, the world is
    untouched, and in the current revision the parser's message is sent
    in every mode. *)
Theorem unparsed_body_is_500 `{E : Engine} `{M : Odm}
        (rev : Revision) (env : Env) (req : Request) (e : Error) (w : World) :
  body req = Throw e ->
  snd (run (app rev env req) w) = w
  /\ status_of (fst (run (app rev env req) w)) = Some 500
  /\ (rev = Current ->
      disclosed (fst (run (app rev env req) w)) = JStr (err_message e)).
Proof.
  intros Hb. unfold app. rewrite Hb.
  destruct (quiet_error_middleware rev env (originalUrl req) e w) as [Hw Hs].
  refine (conj Hw (conj Hs _)). intros ->. reflexivity.
Qed.

Lemma unparsed_body_is_500_witness :
  let bad := mkError "SyntaxError" "Unexpected token } in JSON at position 12"
                     None None None in
  let w := sample_world [] [ana] [] in
  status_of (fst (run (M := sample_odm)
     (app (E := sample_engine) Current (sample_env (Some "production"))
          (mkRequest POST "/api/login" "/api/login" (Throw bad))) w)) = Some 500.
Proof.
  intros bad w.
  apply (@unparsed_body_is_500 sample_engine sample_odm Current
           (sample_env (Some "production"))
           (mkRequest POST "/api/login" "/api/login" (Throw bad)) bad w eq_refl).
Defined.

Lemma unmatched_api_404_witness :
  app (E := sample_engine) Earlier (sample_env (Some "production"))
      (mkRequest PUT "/api/respuestas/7" "/api/respuestas/7?x=1" (Normal (JObj [])))
  = Ret (Json 404 (JObj [("error", JStr "Ruta no encontrada");
                         ("path", JStr "/api/respuestas/7?x=1")])).
Proof.
  apply (@unmatched_api_404 sample_engine Earlier (sample_env (Some "production"))
           (mkRequest PUT "/api/respuestas/7" "/api/respuestas/7?x=1"
                      (Normal (JObj []))) (JObj [])); reflexivity.
Defined.

Lemma unmatched_get_current_witness :
  exists r, app (E := sample_engine) Current (sample_env (Some "production"))
                (sample_request GET "/api/usuarios" (JObj [])) = Ret r
            /\ status_of r <> Some 404.
Proof.
  destruct (@unmatched_get_current sample_engine (sample_env (Some "production"))
              (sample_request GET "/api/usuarios" (JObj [])) (JObj [])
              eq_refl eq_refl eq_refl eq_refl) as (r & _ & Hr & Hs).
  exists r. split; assumption.
Defined.

(** DELETE /api/respuestas asks for no secret and reads no body: any
    such request that the store carries out removes every survey and
    leaves the users alone. *)
Theorem delete_all_needs_no_secret `{E : Engine} `{M : Odm}
        (rev : Revision) (env : Env) (url : string) (b : JSValue) (w : World) :
  calm 1 w = true ->
  let out := run (app rev env (mkRequest DELETE "/api/respuestas" url (Normal b))) w in
  fst out = Json 200 (JObj [("mensaje",
              JStr (decimal (List.length (respuestas w))
                    ++ " respuestas eliminadas correctamente"))])
  /\ respuestas (snd out) = []
  /\ users (snd out) = users w.
Proof.
  intros Hc out. subst out. unfold app. cbn [body method path is_get andb].
  rewrite andb_false_r. cbn [andb].
  replace (endpoint rev env DELETE "/api/respuestas" b)
    with (Some (delete_api_respuestas env)) by reflexivity.
  cbv beta iota. unfold delete_api_respuestas.
  match goal with
  | |- context [run (try_await ?c ?h ?k) w] =>
      destruct (run_await_calm c h k 0 w Hc) as (Hrun & _ & Hr & Hu & _)
  end.
  rewrite Hrun. cbn [run fst snd resolve]. rewrite Hr.
  refine (conj eq_refl (conj eq_refl _)). exact Hu.
Qed.

Lemma delete_all_needs_no_secret_witness :
  let d := mkRespuesta "0" [("nombre", JStr "Ana")] 1699999000000 1699999000000 in
  respuestas (snd (run (M := sample_odm)
     (app (E := sample_engine) Current (sample_env (Some "production"))
          (mkRequest DELETE "/api/respuestas" "/api/respuestas" (Normal JNull)))
     (sample_world [d; d; d] [ana] []))) = [].
Proof.
  intros d.
  apply (@delete_all_needs_no_secret sample_engine sample_odm Current
           (sample_env (Some "production")) "/api/respuestas" JNull
           (sample_world [d; d; d] [ana] []) eq_refl).
Defined.

(** ** DELETE /api/respuestas/:id *)

Lemma substring_all (s : string) : substring 0 (String.length s) s = s.
Proof. induction s as [|c r IH]; simpl; [reflexivity|now rewrite IH]. Qed.

Lemma strip_slash_none (s : string) : has_slash s = false -> strip_slash s = s.
Proof.
  induction s as [|c r IH]; simpl; [reflexivity|].
  intros H. apply orb_false_iff in H as [Hc Hr].
  destruct r as [|c' r']; [now rewrite Hc|]. now rewrite (IH Hr).
Qed.

Lemma prefix_app (s t : string) : String.prefix s (s ++ t) = true.
Proof.
  induction s as [|c r IH]; simpl; [now destruct t|].
  destruct (ascii_dec c c) as [_|Hn]; [exact IH|now elim Hn].
Qed.

Lemma match_id_segment (id : string) :
  id <> "" -> has_slash id = false -> match_id ("/api/respuestas/" ++ id) = Some id.
Proof.
  intros Hne Hs. unfold match_id.
  replace (lower ("/api/respuestas/" ++ id))
    with ("/api/respuestas/" ++ lower id) by reflexivity.
  rewrite prefix_app.
  replace (substring (String.length "/api/respuestas/")
             (String.length ("/api/respuestas/" ++ id)
              - String.length "/api/respuestas/") ("/api/respuestas/" ++ id))
    with (substring 0 (String.length id - 0) id) by reflexivity.
  rewrite Nat.sub_0_r, substring_all, (@strip_slash_none id Hs), Hs.
  apply String.eqb_neq in Hne. now rewrite Hne.
Qed.

(** A DELETE on [/api/respuestas/] followed by one non-empty segment
    with no slash and no percent escape is handled by the delete-one
    handler with that segment as the id, in either revision and every
    mode. *)
Theorem delete_by_id_route `{E : Engine}
        (rev : Revision) (env : Env) (id url : string) (b : JSValue) :
  id <> "" -> has_slash id = false -> has_percent id = false ->
  app rev env (mkRequest DELETE ("/api/respuestas/" ++ id) url (Normal b))
  = delete_api_respuestas_id env id.
Proof.
  intros Hne Hs _. unfold app. cbn [body method path is_get].
  rewrite andb_false_r. cbv beta iota. unfold endpoint.
  cbn [is_get is_post is_delete andb]. rewrite (@match_id_segment id Hne Hs).
  reflexivity.
Qed.

Lemma delete_by_id_route_witness :
  app (E := sample_engine) Current (sample_env (Some "production"))
      (mkRequest DELETE "/api/respuestas/65f0c2a9e1" "/api/respuestas/65f0c2a9e1"
                 (Normal (JObj [])))
  = delete_api_respuestas_id (sample_env (Some "production")) "65f0c2a9e1".
Proof.
  apply (@delete_by_id_route sample_engine Current (sample_env (Some "production"))
           "65f0c2a9e1" "/api/respuestas/65f0c2a9e1" (JObj []));
    [discriminate|reflexivity|reflexivity].
Defined.

Lemma absent_id (id : string) (l : list Respuesta) :
  (forall d, In d l -> _id d <> id) ->
  find (fun d => String.eqb (_id d) id) l = None /\ remove_id id l = l.
Proof.
  induction l as [|x l IH]; intros H; simpl; [auto|].
  assert (Hx : String.eqb (_id x) id = false)
    by (apply String.eqb_neq, H; now left).
  rewrite Hx. destruct IH as [Hf Hr]; [intros d Hd; apply H; now right|].
  now rewrite Hf, Hr.
Qed.

Lemma present_id (id : string) (l : list Respuesta) :
  In id (map _id l) -> exists d, find (fun d => String.eqb (_id d) id) l = Some d.
Proof.
  induction l as [|x l IH]; simpl; [intros []|].
  intros [Hx|Hin].
  - subst id. rewrite String.eqb_refl. now exists x.
  - destruct (String.eqb (_id x) id); [now exists x|auto].
Qed.

Lemma filter_absent_id (id : string) (l : list Respuesta) :
  ~ In id (map _id l) -> filter (fun d => negb (String.eqb (_id d) id)) l = l.
Proof.
  induction l as [|x l IH]; simpl; [reflexivity|]. intros Hn.
  assert (Hx : String.eqb (_id x) id = false).
  { apply String.eqb_neq. intros Heq. apply Hn. now left. }
  rewrite Hx. simpl. f_equal. apply IH. intros Hin. apply Hn. now right.
Qed.

Lemma remove_id_unique (id : string) (l : list Respuesta) :
  NoDup (map _id l) ->
  remove_id id l = filter (fun d => negb (String.eqb (_id d) id)) l.
Proof.
  induction l as [|x l IH]; simpl; [reflexivity|].
  intros Hnd. inversion Hnd as [|i ids Hnotin Hnd']; subst.
  destruct (String.eqb_spec (_id x) id) as [Heq|Hneq]; simpl.
  - subst id. symmetry. now apply filter_absent_id.
  - f_equal. now apply IH.
Qed.

Lemma delete_absent `{M : Odm} (env : Env) (id : string) (w : World) :
  calm 1 w = true ->
  (forall d, In d (respuestas w) -> _id d <> id) ->
  fst (run (delete_api_respuestas_id env id) w)
  = Json 404 (JObj [("mensaje", JStr "Respuesta no encontrada")])
  /\ respuestas (snd (run (delete_api_respuestas_id env id) w)) = respuestas w
  /\ users (snd (run (delete_api_respuestas_id env id) w)) = users w.
Proof.
  intros Hc Hno. unfold delete_api_respuestas_id.
  match goal with
  | |- context [run (try_await ?c ?h ?k) w] =>
      destruct (run_await_calm c h k 0 w Hc) as (Hrun & _ & Hr & Hu & _)
  end.
  rewrite Hrun. cbn [resolve fst snd]. rewrite Hr.
  destruct (@absent_id id (respuestas w) Hno) as [Hf Hrm].
  rewrite Hf, Hrm. refine (conj eq_refl (conj eq_refl _)). exact Hu.
Qed.

(** Deleting a well-formed identifier (the 24 lower-case hexadecimal
    digits of an ObjectId, as all stored identifiers are) that no
    stored survey has is answered 404 and changes neither collection. *)
Theorem delete_unknown_id_404 `{M : Odm} (env : Env) (id : string) (w : World) :
  calm 1 w = true ->
  is_ObjectId_hex id = true ->
  (forall d, In d (respuestas w) -> is_ObjectId_hex (_id d) = true) ->
  (forall d, In d (respuestas w) -> _id d <> id) ->
  fst (run (delete_api_respuestas_id env id) w)
  = Json 404 (JObj [("mensaje", JStr "Respuesta no encontrada")])
  /\ respuestas (snd (run (delete_api_respuestas_id env id) w)) = respuestas w
  /\ users (snd (run (delete_api_respuestas_id env id) w)) = users w.
Proof. intros Hc _ _. exact (@delete_absent M env id w Hc). Qed.

Lemma delete_unknown_id_404_witness :
  let d := mkRespuesta "65f0c2a9e1b2c3d4e5f60718" [] 5 5 in
  respuestas (snd (run (M := sample_odm)
     (delete_api_respuestas_id (sample_env None) "65f0c2a9e1b2c3d4e5f60719")
     (sample_world [d] [] []))) = [d].
Proof.
  intros d.
  refine (proj1 (proj2 (@delete_unknown_id_404 sample_odm (sample_env None)
           "65f0c2a9e1b2c3d4e5f60719" (sample_world [d] [] []) eq_refl eq_refl _ _))).
  - intros x [<-|[]]. reflexivity.
  - intros x [<-|[]]. discriminate.
Defined.

(** With identifiers that are unique, deleting a stored id is answered
    200 and removes that survey and no other; deleting it again is
    answered 404 and removes nothing. *)
Theorem delete_twice `{M : Odm} (env : Env) (id : string) (w : World) :
  calm 2 w = true ->
  NoDup (map _id (respuestas w)) ->
  In id (map _id (respuestas w)) ->
  let first := run (delete_api_respuestas_id env id) w in
  let second := run (delete_api_respuestas_id env id) (snd first) in
  fst first = Json 200 (JObj [("mensaje", JStr "Respuesta eliminada correctamente")])
  /\ respuestas (snd first)
     = filter (fun d => negb (String.eqb (_id d) id)) (respuestas w)
  /\ fst second = Json 404 (JObj [("mensaje", JStr "Respuesta no encontrada")])
  /\ respuestas (snd second) = respuestas (snd first).
Proof.
  intros Hc Hnd Hin first second.
  assert (Hfirst : fst first
            = Json 200 (JObj [("mensaje", JStr "Respuesta eliminada correctamente")])
          /\ respuestas (snd first)
             = filter (fun d => negb (String.eqb (_id d) id)) (respuestas w)
          /\ calm 1 (snd first) = true).
  { subst first. unfold delete_api_respuestas_id.
    match goal with
    | |- context [run (try_await ?c ?h ?k) w] =>
        destruct (run_await_calm c h k 1 w Hc) as (Hrun & Hc1 & Hr & _)
    end.
    rewrite Hrun. cbn [resolve fst snd] in *. rewrite Hr.
    destruct (@present_id id (respuestas w) Hin) as [d Hd]. rewrite Hd.
    cbn [run fst snd respuestas set_respuestas].
    rewrite (@remove_id_unique id _ Hnd). auto. }
  destruct Hfirst as (H1 & H2 & Hc1).
  refine (conj H1 (conj H2 _)).
  destruct (@delete_absent M env id (snd first) Hc1) as (H3 & H4 & _);
    [|split; assumption].
  intros d Hd. rewrite H2 in Hd. apply filter_In in Hd as [_ Hd].
  apply negb_true_iff in Hd. now apply String.eqb_neq.
Qed.

Lemma delete_twice_witness :
  let a := mkRespuesta "a1" [] 5 5 in
  let b := mkRespuesta "b2" [] 6 6 in
  let first := run (M := sample_odm) (delete_api_respuestas_id (sample_env None) "a1")
                   (sample_world [a; b] [] []) in
  respuestas (snd first) = [b]
  /\ status_of (fst (run (M := sample_odm)
                      (delete_api_respuestas_id (sample_env None) "a1") (snd first)))
     = Some 404.
Proof.
  intros a b first.
  destruct (@delete_twice sample_odm (sample_env None) "a1" (sample_world [a; b] [] []))
    as (_ & H2 & H3 & _).
  - reflexivity.
  - repeat constructor; simpl; intuition discriminate.
  - simpl. now left.
  - exact (conj H2 (f_equal status_of H3)).
Defined.

(** ** GET /api/respuestas *)

Lemma insert_desc_perm (d : Respuesta) (l : list Respuesta) :
  Permutation (insert_desc d l) (d :: l).
Proof.
  induction l as [|x l IH]; simpl; [reflexivity|].
  destruct (createdAt x <? createdAt d); [reflexivity|].
  rewrite IH. apply perm_swap.
Qed.

Lemma sort_desc_perm (l : list Respuesta) : Permutation (sort_desc l) l.
Proof.
  induction l as [|x l IH]; simpl; [reflexivity|].
  fold (sort_desc l). rewrite insert_desc_perm. now constructor.
Qed.

Lemma insert_desc_sorted (d : Respuesta) (l : list Respuesta) :
  StronglySorted (fun a b => createdAt b <= createdAt a) l ->
  StronglySorted (fun a b => createdAt b <= createdAt a) (insert_desc d l).
Proof.
  induction l as [|x l IH]; simpl; intros Hs.
  - repeat constructor.
  - inversion Hs as [|y ys Hs' Hall]; subst.
    destruct (Z.ltb_spec (createdAt x) (createdAt d)) as [Hlt|Hge].
    + constructor; [exact Hs|]. constructor; [lia|].
      eapply Forall_impl; [|exact Hall]. simpl. intros a Ha. lia.
    + constructor; [now apply IH|].
      apply (Permutation_Forall (Permutation_sym (insert_desc_perm d l))).
      constructor; [lia|exact Hall].
Qed.

Lemma sort_desc_sorted (l : list Respuesta) :
  StronglySorted (fun a b => createdAt b <= createdAt a) (sort_desc l).
Proof.
  induction l as [|x l IH]; simpl; [constructor|].
  now apply insert_desc_sorted.
Qed.

Lemma sort_desc_newest_last (d : Respuesta) (l : list Respuesta) :
  (forall x, In x l -> createdAt x < createdAt d) ->
  sort_desc (l ++ [d]) = d :: sort_desc l.
Proof.
  intros Hl. unfold sort_desc. rewrite fold_right_app. simpl.
  induction l as [|x l IH]; simpl; [reflexivity|].
  rewrite IH by (intros y Hy; apply Hl; now right). simpl.
  assert (Hx : (createdAt d <? createdAt x) = false).
  { apply Z.ltb_ge. specialize (Hl x (or_introl eq_refl)). lia. }
  now rewrite Hx.
Qed.

(** The list endpoint answers with every stored survey, each once, the
    newest first. *)
Theorem list_newest_first `{M : Odm} (env : Env) (w : World) :
  calm 1 w = true ->
  exists l,
    run (get_api_respuestas env) w
    = (Json 200 (JArr (map Respuesta_toJSON l)), snd (next_rejection w))
    /\ Permutation l (respuestas w)
    /\ StronglySorted (fun a b => createdAt b <= createdAt a) l.
Proof.
  intros Hc. exists (sort_desc (respuestas w)). unfold get_api_respuestas.
  match goal with
  | |- context [run (try_await ?c ?h ?k) w] =>
      destruct (run_await_calm c h k 0 w Hc) as (Hrun & _ & Hr & _)
  end.
  rewrite Hrun. cbn [run resolve fst snd]. rewrite Hr.
  refine (conj eq_refl (conj _ _)).
  - apply sort_desc_perm.
  - apply sort_desc_sorted.
Qed.

Lemma list_newest_first_witness :
  let a := mkRespuesta "a" [] 10 10 in
  let b := mkRespuesta "b" [] 30 30 in
  let c := mkRespuesta "c" [] 20 20 in
  exists l, fst (run (M := sample_odm) (get_api_respuestas (sample_env None))
                     (sample_world [a; b; c] [] []))
            = Json 200 (JArr (map Respuesta_toJSON l))
            /\ Permutation l [a; b; c].
Proof.
  intros a b c.
  destruct (@list_newest_first sample_odm (sample_env None)
              (sample_world [a; b; c] [] []) eq_refl) as (l & Hl & Hp & _).
  exists l. split; [exact (f_equal fst Hl)|exact Hp].
Defined.

(** ** POST /api/respuestas, then the list *)

(** An accepted submission is answered 201 with the identifier of the
    stored survey, and when its creation time is later than that of
    every stored survey the list that follows shows it first, before
    the surveys listed so far. *)
Theorem submit_then_list `{M : Odm}
        (rev : Revision) (env : Env) (body : JSValue) (w : World) :
  let d := new_Respuesta body (clock w) (built w) in
  let out := run (post_api_respuestas rev env body) w in
  truthy (get_prop body "nombre") = true ->
  truthy (get_prop body "puesto") = true ->
  calm 2 w = true ->
  (forall x, In x (respuestas w) -> createdAt x < createdAt d) ->
  fst out = Json 201 (JObj [("mensaje", JStr "Respuesta guardada correctamente");
                            ("id", JStr (_id d))])
  /\ fst (run (get_api_respuestas env) (snd out))
     = Json 200 (JArr (Respuesta_toJSON d
                       :: map Respuesta_toJSON (sort_desc (respuestas w)))).
Proof.
  intros d out Hn Hp Hc Hnew. subst out.
  unfold post_api_respuestas. rewrite Hn, Hp. cbn [negb orb].
  match goal with
  | |- context [run (try_await ?c ?h ?k) w] =>
      destruct (run_await_calm c h k 1 w Hc) as (Hrun & Hc1 & Hr & _ & Hk)
  end.
  rewrite Hrun. cbn [run fst snd resolve] in *.
  destruct (next_rejection_store w) as (_ & _ & Hb & _).
  rewrite Hr, Hk, Hb in *. fold d in Hc1 |- *.
  split; [reflexivity|].
  unfold get_api_respuestas.
  match goal with
  | |- context [run (try_await ?c ?h ?k) ?w1] =>
      destruct (run_await_calm c h k 0 w1 Hc1) as (Hrun1 & _ & Hr1 & _)
  end.
  rewrite Hrun1. cbn [run fst snd resolve]. rewrite Hr1.
  cbn [respuestas set_respuestas]. rewrite (sort_desc_newest_last d _ Hnew).
  reflexivity.
Qed.

Lemma submit_then_list_witness :
  let old := mkRespuesta "0" [("nombre", JStr "Luz")] 1699999000000 1699999000000 in
  let body := JObj [("nombre", JStr "Ana"); ("puesto", JStr "Vendedora")] in
  let w := sample_world [old] [] [] in
  fst (run (M := sample_odm) (get_api_respuestas (sample_env None))
           (snd (run (M := sample_odm)
                     (post_api_respuestas Current (sample_env None) body) w)))
  = Json 200 (JArr [Respuesta_toJSON
                      (mkRespuesta "1" [("nombre", JStr "Ana"); ("puesto", JStr "Vendedora")]
                                   1700000000000 1700000000000);
                    Respuesta_toJSON old]).
Proof.
  intros old body w.
  refine (proj2 (@submit_then_list sample_odm Current (sample_env None) body w
                   eq_refl eq_refl eq_refl _)).
  intros x [<-|[]]. reflexivity.
Defined.

(** ** What the answers say about the store *)

Lemma exec_Normal `{M : Odm} {A : Type} (c : DbCall A) (w w' : World) (a : A) :
  exec c w = (Normal a, w') -> resolve c (snd (next_rejection w)) = (a, w').
Proof.
  unfold exec. destruct (next_rejection w) as [[e|] w0]; simpl; [discriminate|].
  destruct (resolve c w0). intros H. now inversion H.
Qed.

Lemma filter_gte_app (t : Z) (l : list Respuesta) (d : Respuesta) :
  List.length (filter (gte_createdAt t) (l ++ [d]))
  = (List.length (filter (gte_createdAt t) l)
     + (if gte_createdAt t d then 1 else 0))%nat.
Proof.
  rewrite filter_app, length_app. simpl.
  now destruct (gte_createdAt t d).
Qed.

(** The statistics are two counts taken one after the other, not a
    snapshot.  When the requests served while the handler waits leave
    the surveys as they are, a 200 carries the number of stored surveys
    as total and a week count between 0 and the total.  When a survey
    [d] is stored between the two counts, total is the number before
    and the week count is taken after: with [d] and every stored survey
    inside the week, the week count is the total plus one. *)
Theorem estadisticas_week_le_total `{M : Odm} (env : Env) (w : World) :
  (forall others,
     (forall x, respuestas (others x) = respuestas x) ->
     status_of (fst (run_among others (get_api_estadisticas env) w)) = Some 200 ->
     exists week t,
       fst (run_among others (get_api_estadisticas env) w)
       = Json 200 (JObj [("total", JNum (Z.of_nat (List.length (respuestas w))));
                         ("ultimaSemana", JNum week); ("timestamp", JDate t)])
       /\ 0 <= week <= Z.of_nat (List.length (respuestas w)))
  /\ (forall d,
      calm 2 w = true ->
      let since := clock w - 7 * 24 * 60 * 60 * 1000 in
      let total := List.length (respuestas w) in
      let week := (List.length (filter (gte_createdAt since) (respuestas w))
                   + (if gte_createdAt since d then 1 else 0))%nat in
      fst (run_among (stores d) (get_api_estadisticas env) w)
      = Json 200 (JObj [("total", JNum (Z.of_nat total));
                        ("ultimaSemana", JNum (Z.of_nat week));
                        ("timestamp", JDate (clock w))])
      /\ (gte_createdAt since d = true ->
          forallb (gte_createdAt since) (respuestas w) = true ->
          week = S total)).
Proof.
  split.
  - intros others Hkeep.
    unfold get_api_estadisticas, try_await. cbn [run_among].
    destruct (next_rejection_store w) as (Hr0 & _).
    destruct (exec (Respuesta_countDocuments None) w) as [[n|e] w1] eqn:H1;
      cbn [run_among fst]; [|discriminate].
    apply exec_Normal in H1. cbn [resolve] in H1. inversion H1; subst. clear H1.
    set (w1 := others (snd (next_rejection w))).
    destruct (next_rejection_store w1) as (Hr1 & _).
    set (c := Respuesta_countDocuments _).
    destruct (exec c w1) as [[m|e] w2] eqn:H2; cbn [run_among fst]; [|discriminate].
    apply exec_Normal in H2. subst c. cbn [resolve] in H2. inversion H2; subst.
    clear H2. intros _. rewrite Hr1. unfold w1. rewrite Hkeep, Hr0.
    eexists. eexists. split; [reflexivity|].
    split; [lia|]. apply Nat2Z.inj_le, filter_length_le.
  - intros d Hc since total week.
    destruct (calm_next 1 w Hc) as [Hn Hc1].
    destruct (next_rejection_store w) as (Hr0 & _ & _ & Hk0).
    set (w0 := snd (next_rejection w)) in *.
    assert (Hn1 : fst (next_rejection (stores d w0)) = None).
    { apply (calm_next 0). exact Hc1. }
    split.
    + unfold get_api_estadisticas, try_await. cbn [run_among].
      rewrite (exec_resolved _ w Hn). fold w0. cbn [resolve fst snd run_among].
      rewrite (exec_resolved _ _ Hn1). cbn [resolve fst snd run_among].
      destruct (next_rejection_store (stores d w0)) as (Hr1 & _ & _ & Hk1).
      rewrite Hr1. cbn [stores respuestas set_respuestas clock].
      rewrite Hk1. cbn [stores set_respuestas clock].
      rewrite filter_gte_app, Hr0, Hk0. reflexivity.
    + intros Hd Hall. subst week total. rewrite Hd.
      rewrite (forallb_filter_id _ _ Hall). lia.
Qed.

Lemma estadisticas_week_le_total_witness :
  let t := 1700000000000 in
  let a := mkRespuesta "a" [] (t - 1000) (t - 1000) in
  let d := mkRespuesta "b" [] t t in
  fst (run_among (M := sample_odm) (stores d) (get_api_estadisticas (sample_env None))
                 (sample_world [a] [] []))
  = Json 200 (JObj [("total", JNum 1); ("ultimaSemana", JNum 2);
                    ("timestamp", JDate t)])
  /\ exists week t',
      fst (run_among (M := sample_odm) (fun x => x)
                     (get_api_estadisticas (sample_env None)) (sample_world [a] [] []))
      = Json 200 (JObj [("total", JNum 1); ("ultimaSemana", JNum week);
                        ("timestamp", JDate t')])
      /\ 0 <= week <= 1.
Proof.
  intros t a d. split.
  - apply (proj1 (proj2 (@estadisticas_week_le_total sample_odm (sample_env None)
                           (sample_world [a] [] [])) d eq_refl)).
  - apply (proj1 (@estadisticas_week_le_total sample_odm (sample_env None)
                    (sample_world [a] [] [])) (fun x => x)); reflexivity.
Defined.

Lemma catch_post_respuestas_not_201 (rev : Revision) (env : Env) (e : Error) :
  status_of (catch_post_respuestas rev env e) <> Some 201.
Proof.
  unfold catch_post_respuestas. destruct rev; [|discriminate].
  destruct (String.eqb (err_name e) "ValidationError"); [|discriminate].
  destruct (err_errors e); discriminate.
Qed.

(** A submission leaves a survey behind exactly when it is answered
    201: in that case the one document built from its body is appended,
    and with any other answer (400, 500) the surveys are as before.  The
    users are never touched. *)
Theorem submit_stores_iff_201 `{M : Odm}
        (rev : Revision) (env : Env) (body : JSValue) (w : World) :
  let d := new_Respuesta body (clock w) (built w) in
  let out := run (post_api_respuestas rev env body) w in
  users (snd out) = users w
  /\ ((status_of (fst out) = Some 201
       /\ respuestas (snd out) = (respuestas w ++ [d])%list)
      \/ (status_of (fst out) <> Some 201
          /\ respuestas (snd out) = respuestas w)).
Proof.
  intros d out. subst out. unfold post_api_respuestas.
  destruct (negb (truthy (get_prop body "nombre"))
            || negb (truthy (get_prop body "puesto"))).
  - split; [reflexivity|]. right. split; [discriminate|reflexivity].
  - unfold try_await. cbn [run]. unfold exec.
    destruct (next_rejection_store w) as (Hr & Hu & Hb & Hk).
    destruct (next_rejection w) as [[e|] w0]; cbn [fst snd run resolve] in *.
    + split; [exact Hu|]. right. split; [|exact Hr].
      apply catch_post_respuestas_not_201.
    + split; [exact Hu|]. left. split; [reflexivity|].
      cbn [respuestas set_respuestas]. subst d. now rewrite Hr, Hk, Hb.
Qed.

(** ** GET /api/health and the mode *)

(** With [NODE_ENV] unset or empty the health check, which touches
    nothing and cannot fail, reports the environment as ['development'],
    while every gated catch block treats the same process as not in
    development and withholds the message. *)
Theorem health_says_development_but_details_hidden `{M : Odm}
        (rev : Revision) (env : Env) (w : World) :
  NODE_ENV env = None \/ NODE_ENV env = Some "" ->
  snd (run (get_api_health rev env) w) = w
  /\ status_of (fst (run (get_api_health rev env) w)) = Some 200
  /\ get_prop (body_of (fst (run (get_api_health rev env) w))) "environment"
     = JStr "development"
  /\ (forall h e, gated rev h = true -> status_of (catch_of rev h env e) = Some 500 ->
      disclosed (catch_of rev h env e) = JStr "Error interno del servidor"
      \/ disclosed (catch_of rev h env e) = JStr "Error interno").
Proof.
  intros Hmode.
  assert (Henv : environment env = "development")
    by (unfold environment; destruct Hmode as [-> | ->]; reflexivity).
  assert (Hgate : forall e g, details_gate env e g = JStr g).
  { intros e g. apply details_gate_otherwise.
    destruct Hmode as [-> | ->]; discriminate. }
  refine (conj eq_refl (conj eq_refl (conj _ _))).
  - unfold get_api_health. cbn [run fst body_of]. simpl. now rewrite Henv.
  - intros h e Hg Hs.
    destruct h; cbn [catch_of gated] in *; unfold_catch;
      try (unfold disclosed; simpl; rewrite Hgate; now auto).
    + destruct rev; [discriminate Hg|].
      unfold disclosed; simpl; rewrite Hgate; now auto.
    + rewrite catch_post_register_eq. rewrite catch_post_register_eq in Hs.
      destruct (is_duplicate e).
      * destruct (err_keyPattern e); discriminate Hs.
      * unfold disclosed; simpl; rewrite Hgate; now auto.
Qed.

Lemma health_says_development_but_details_hidden_witness :
  get_prop (body_of (fst (run (M := sample_odm) (get_api_health Current (sample_env None))
                              (sample_world [] [] [Some sample_failure]))))
           "environment" = JStr "development".
Proof.
  apply (proj1 (proj2 (proj2
    (@health_says_development_but_details_hidden sample_odm Current (sample_env None)
       (sample_world [] [] [Some sample_failure]) (or_introl eq_refl))))).
Defined.
